(** * Banking client: models, transport client and transfer service

    A shallow embedding of [models.py], [config.py], [api_client.py] and
    [services.py].  Python objects become Rocq values, the mutable client and
    the network become an explicit state threaded through a small
    state-and-exception monad, and [raise]/[try]/[except] become a sum type
    with handlers. *)

From Stdlib Require Import String Ascii List ZArith Lia Bool DecimalString.
From Equations Require Import Equations.
Import ListNotations.

Set Warnings "-register-all".

Open Scope string_scope.
Open Scope Z_scope.

(** ** The Python values the program manipulates *)

Module Py.

(** A [str] is a sequence of code points; the model covers the code points
    below 256, one per [ascii]. *)

(** [str.isspace] for one code point, as [str.strip()] uses it. *)
Definition isspace (c : ascii) : bool :=
  let n := N_of_ascii c in
  (((9 <=? n) && (n <=? 13)) || ((28 <=? n) && (n <=? 32))
   || (n =? 133) || (n =? 160))%N.

Fixpoint lstrip (s : string) : string :=
  match s with
  | EmptyString => EmptyString
  | String c s' => if isspace c then lstrip s' else s
  end.

Fixpoint rstrip (s : string) : string :=
  match s with
  | EmptyString => EmptyString
  | String c s' =>
      match rstrip s' with
      | EmptyString => if isspace c then EmptyString else String c EmptyString
      | r => String c r
      end
  end.

(** [s.strip()] *)
Definition strip (s : string) : string := rstrip (lstrip s).

(** [not s] for a string. *)
Definition str_falsy (s : string) : bool :=
  match s with EmptyString => true | _ => false end.

(** [str(n)] for an [int]. *)
Definition str_int (n : Z) : string := NilZero.string_of_int (Z.to_int n).

Fixpoint join (sep : string) (l : list string) : string :=
  match l with
  | [] => ""
  | [x] => x
  | x :: rest => x ++ sep ++ join sep rest
  end.

(** [sub in s] for two strings. *)
Definition contains (s sub : string) : Prop :=
  exists pre post, s = pre ++ sub ++ post.

(** What [json.loads] produces.  A [float] is kept as the text [repr]
    prints for it, which identifies it: [100.0] is [VFloat "100.0"].  A
    [dict] keeps its items in insertion order. *)
Inductive value : Type :=
| VNone
| VBool (b : bool)
| VInt (n : Z)
| VFloat (repr : string)
| VStr (s : string)
| VList (l : list value)
| VDict (d : list (string * value)).

Definition dict : Type := list (string * value).

(** Truth value of an object, as [if v], [not v] and [v or w] test it. *)
Definition truthy (v : value) : bool :=
  match v with
  | VNone => false
  | VBool b => b
  | VInt n => negb (n =? 0)
  | VFloat r => negb (String.eqb r "0.0" || String.eqb r "-0.0")
  | VStr s => negb (str_falsy s)
  | VList l => match l with [] => false | _ => true end
  | VDict d => match d with [] => false | _ => true end
  end.

(** [v or w] *)
Definition py_or (v w : value) : value := if truthy v then v else w.

(** [d.get(k)], absent as [None] of [option]. *)
Fixpoint lookup (k : string) (d : dict) : option value :=
  match d with
  | [] => None
  | (k', v) :: d' => if String.eqb k k' then Some v else lookup k d'
  end.

(** [d.get(k, default)] *)
Definition get_default (d : dict) (k : string) (default : value) : value :=
  match lookup k d with Some v => v | None => default end.

(** [d.get(k)]: the default is [None]. *)
Definition get (d : dict) (k : string) : value := get_default d k VNone.

(** [k in d] *)
Definition mem (k : string) (d : dict) : bool :=
  match lookup k d with Some _ => true | None => false end.

(** [repr] of a string: quotes and escapes. *)
Definition hex_digit (n : N) : ascii :=
  ascii_of_N (if (n <? 10)%N then 48 + n else 87 + n)%N.

Definition escape_char (quote c : ascii) : string :=
  let n := N_of_ascii c in
  if Ascii.eqb c quote || Ascii.eqb c "\"%char then String "\" (String c "")
  else if (n =? 9)%N then "\t"
  else if (n =? 10)%N then "\n"
  else if (n =? 13)%N then "\r"
  else if ((n <? 32) || ((127 <=? n) && (n <=? 160)) || (n =? 173))%N
       then String "\" (String "x"
              (String (hex_digit (n / 16)) (String (hex_digit (n mod 16)) "")))
  else String c "".

Fixpoint has_char (c : ascii) (s : string) : bool :=
  match s with
  | EmptyString => false
  | String c' s' => Ascii.eqb c c' || has_char c s'
  end.

Fixpoint escape (quote : ascii) (s : string) : string :=
  match s with
  | EmptyString => EmptyString
  | String c s' => escape_char quote c ++ escape quote s'
  end.

Definition squote : ascii := ascii_of_N 39.
Definition dquote : ascii := ascii_of_N 34.

Definition repr_str (s : string) : string :=
  let quote :=
    if has_char squote s && negb (has_char dquote s)
    then dquote else squote in
  String quote (escape quote s ++ String quote "").

(** [repr(v)] *)
Fixpoint py_repr (v : value) : string :=
  match v with
  | VNone => "None"
  | VBool true => "True"
  | VBool false => "False"
  | VInt n => str_int n
  | VFloat r => r
  | VStr s => repr_str s
  | VList l => "[" ++ join ", " (map py_repr l) ++ "]"
  | VDict d =>
      "{" ++ join ", "
               (map (fun kv => let '(k, x) := kv in
                               repr_str k ++ ": " ++ py_repr x) d) ++ "}"
  end.

(** [str(v)], also what an f-string field prints. *)
Definition py_str (v : value) : string :=
  match v with
  | VStr s => s
  | _ => py_repr v
  end.

End Py.

(** ** [decimal.Decimal] and [datetime.datetime] *)

Module PyLib.
Import Py.

(** A finite decimal number, [coef * 10 ^ exp]: what the parser below
    yields.  The special values (NaN, the infinities) come with
    [DecimalValue]. *)
Record Decimal : Type := mkDecimal { coef : Z; exp : Z }.

(** A [Decimal] object as [amount] can hold one: a finite number, an
    infinity, or a NaN, quiet or signaling. *)
Inductive DecimalValue : Type :=
| Finite (d : Decimal)
| Infinity (negative : bool)
| NaN.

(** [d <= 0]: an ordering comparison with a NaN signals
    [decimal.InvalidOperation], which the default context raises; [None]
    stands for it. *)
Definition dec_le0 (d : DecimalValue) : option bool :=
  match d with
  | Finite x => Some (coef x <=? 0)
  | Infinity negative => Some negative
  | NaN => None
  end.

(** [a == b]: equality of the numbers, whatever the exponents. *)
Definition dec_eqb (a b : Decimal) : bool :=
  let m := Z.min (exp a) (exp b) in
  coef a * 10 ^ (exp a - m) =? coef b * 10 ^ (exp b - m).

Definition digit_of (c : ascii) : option Z :=
  let n := N_of_ascii c in
  if ((48 <=? n) && (n <=? 57))%N then Some (Z.of_N n - 48) else None.

(** The longest prefix of digits: its value on top of [acc], how many
    digits it has, and what follows it. *)
Fixpoint take_digits (acc cnt : Z) (s : string) : Z * Z * string :=
  match s with
  | EmptyString => (acc, cnt, s)
  | String c s' =>
      match digit_of c with
      | Some d => take_digits (10 * acc + d) (cnt + 1) s'
      | None => (acc, cnt, s)
      end
  end.

(** An optional sign: whether it is a minus, and what follows it. *)
Definition take_sign (s : string) : bool * string :=
  match s with
  | String "-" s' => (true, s')
  | String "+" s' => (false, s')
  | _ => (false, s)
  end.

Fixpoint remove_underscores (s : string) : string :=
  match s with
  | EmptyString => EmptyString
  | String "_" s' => remove_underscores s'
  | String c s' => String c (remove_underscores s')
  end.

Definition signed (neg : bool) (n : Z) : Z := if neg then - n else n.

(** [Decimal(s)] for a string: sign, digits with an optional point, an
    optional exponent; [None] stands for [decimal.InvalidOperation].  The
    spellings of NaN and of the infinities are reported like the strings
    that are no number, the model having no value for them. *)
Definition Decimal_of_str (s : string) : option Decimal :=
  let (neg, s1) := take_sign (remove_underscores (strip s)) in
  let '(i, ni, s2) := take_digits 0 0 s1 in
  let '(c, nf, s3) :=
    match s2 with
    | String "." s' => take_digits i 0 s'
    | _ => (i, 0, s2)
    end in
  if ni + nf =? 0 then None
  else match s3 with
       | EmptyString => Some (mkDecimal (signed neg c) (- nf))
       | String e s4 =>
           if Ascii.eqb e "e" || Ascii.eqb e "E" then
             let (eneg, s5) := take_sign s4 in
             let '(x, nx, s6) := take_digits 0 0 s5 in
             if (nx =? 0) || negb (str_falsy s6) then None
             else Some (mkDecimal (signed neg c) (signed eneg x - nf))
           else None
       end.

(** [Decimal(str(v))] *)
Definition Decimal_of_value (v : value) : option Decimal :=
  Decimal_of_str (py_str v).

(** A naive [datetime]. *)
Record datetime : Type := mkDatetime {
  year : Z; month : Z; day : Z;
  hour : Z; minute : Z; second : Z; microsecond : Z
}.

Fixpoint zeros (n : nat) : string :=
  match n with O => "" | S n' => String "0" (zeros n') end.

(** [str(n).zfill(width)] for a natural [n]. *)
Definition zfill (width : nat) (n : Z) : string :=
  let s := str_int n in
  zeros (width - String.length s) ++ s.

(** [d.isoformat()] *)
Definition isoformat (d : datetime) : string :=
  zfill 4 (year d) ++ "-" ++ zfill 2 (month d) ++ "-" ++ zfill 2 (day d)
  ++ "T" ++ zfill 2 (hour d) ++ ":" ++ zfill 2 (minute d) ++ ":"
  ++ zfill 2 (second d)
  ++ (if microsecond d =? 0 then "" else "." ++ zfill 6 (microsecond d)).

Definition fields (d : datetime) : list Z :=
  [year d; month d; day d; hour d; minute d; second d; microsecond d].

Fixpoint lex_ltb (a b : list Z) : bool :=
  match a, b with
  | x :: a', y :: b' => (x <? y) || ((x =? y) && lex_ltb a' b')
  | [], _ :: _ => true
  | _, [] => false
  end.

(** [a >= b] *)
Definition datetime_geb (a b : datetime) : bool :=
  negb (lex_ltb (fields a) (fields b)).

(** The system clock: what each successive call of [datetime.now()]
    reads, and how many calls there have been. *)
Record Clock : Type := mkClock { readings : nat -> datetime; reads : nat }.

(** [datetime.now()] *)
Definition datetime_now (c : Clock) : datetime * Clock :=
  (readings c (reads c), mkClock (readings c) (S (reads c))).

End PyLib.

(** ** Exceptions and results *)

Inductive exn : Type :=
| BankingAPIError (message : string) (status_code : option Z)
| ConnectionError (message : string)
| RuntimeError (message : string)
| ValueError (message : string)
| TimeoutError
| ClientConnectionError (message : string)
| ContentTypeError
| JSONDecodeError
| AttributeError
| TypeError
| InvalidOperation
| OtherError (name : string).

(** [isinstance(e, BankingAPIError)], the test of [except BankingAPIError]. *)
Definition is_BankingAPIError (e : exn) : bool :=
  match e with BankingAPIError _ _ => true | _ => false end.

Inductive result (A : Type) : Type :=
| Ok (a : A)
| Raise (e : exn).

Arguments Ok {A} a.
Arguments Raise {A} e.

(** ** models.py *)

Module TransferRequest.
Import Py PyLib.

Record t : Type := mk {
  from_account : string;
  to_account : string;
  amount : DecimalValue
}.

Definition __post_init__ (self : t) : result unit :=
  if str_falsy (from_account self) || str_falsy (strip (from_account self))
  then Raise (ValueError "Source account cannot be empty")
  else if str_falsy (to_account self) || str_falsy (strip (to_account self))
  then Raise (ValueError "Destination account cannot be empty")
  else if String.eqb (from_account self) (to_account self)
  then Raise (ValueError "Source and destination accounts must be different")
  else match dec_le0 (amount self) with
       | None => Raise InvalidOperation
       | Some true => Raise (ValueError "Transfer amount must be positive")
       | Some false => Ok tt
       end.

(** [TransferRequest(from_account, to_account, amount)]: the generated
    [__init__] stores the fields and runs [__post_init__]. *)
Definition new (from_account to_account : string) (amount : DecimalValue)
  : result t :=
  let self := mk from_account to_account amount in
  match __post_init__ self with
  | Ok _ => Ok self
  | Raise e => Raise e
  end.

End TransferRequest.

Module TransferResponse.
Import Py PyLib.

Record t : Type := mk {
  transaction_id : value;
  status : value;
  from_account : value;
  to_account : value;
  amount : Decimal;
  timestamp : value;
  message : value;
  bonus_points : value;
  permission_level : value;
  new_from_balance : option Decimal;
  new_to_balance : option Decimal
}.

(** [Decimal(str(data.get(key, 0))) if data.get(key) else None] *)
Definition balance_field (data : dict) (key : string)
  : result (option Decimal) :=
  if truthy (get data key) then
    match Decimal_of_value (get_default data key (VInt 0)) with
    | Some d => Ok (Some d)
    | None => Raise InvalidOperation
    end
  else Ok None.

(** [data.get("timestamp") or data.get("issuedAt") or
    datetime.now().isoformat()]: the clock is read only when both keys
    give a false value. *)
Definition timestamp_of (data : dict) (c : Clock) : value * Clock :=
  let v := py_or (get data "timestamp") (get data "issuedAt") in
  if truthy v then (v, c)
  else let (now, c') := datetime_now c in (VStr (isoformat now), c').

(** [TransferResponse.from_dict(data)] *)
Definition from_dict (data : dict) (c : Clock) : result t * Clock :=
  let (timestamp, c') := timestamp_of data c in
  (match Decimal_of_value (get_default data "amount" (VInt 0)) with
  | None => Raise InvalidOperation
  | Some amount =>
      match balance_field data "newFromAccountBalance" with
      | Raise e => Raise e
      | Ok new_from =>
          match balance_field data "newToAccountBalance" with
          | Raise e => Raise e
          | Ok new_to =>
              Ok (mk (get_default data "transactionId" (VStr ""))
                     (get_default data "status" (VStr "UNKNOWN"))
                     (get_default data "fromAccount" (VStr ""))
                     (get_default data "toAccount" (VStr ""))
                     amount
                     timestamp
                     (get data "message")
                     (get data "bonusPoints")
                     (get data "permissionLevel")
                     new_from
                     new_to)
          end
      end
  end, c').

End TransferResponse.

Module AuthToken.
Import Py PyLib.

Record t : Type := mk {
  token : value;
  expires_at : option datetime;
  token_type : string
}.

(** [AuthToken(token=token)]: the other fields take their defaults. *)
Definition of_token (token : value) : t := mk token None "Bearer".

(** [self.is_expired()] *)
Definition is_expired (self : t) (c : Clock) : bool * Clock :=
  match expires_at self with
  | None => (false, c)
  | Some e => let (now, c') := datetime_now c in (datetime_geb now e, c')
  end.

Definition get_header_value (self : t) : string :=
  token_type self ++ " " ++ py_str (token self).

End AuthToken.

(** ** config.py *)

Module Config.

Record t : Type := mk {
  base_url : string;
  timeout : Z;
  max_retries : Z;
  log_level : string
}.

(** [Config()]: the defaults of the dataclass. *)
Definition default : t := mk "http://localhost:8123" 30 3 "INFO".

End Config.

(** ** The HTTP library and the outside world *)

Module Http.
Import Py.

(** What [session.request(method=, url=, json=, params=, headers=)] is
    given. *)
Record Request : Type := mkRequest {
  method : string;
  url : string;
  json : option value;
  params : option dict;
  headers : list (string * string)
}.

(** A response once its body has been read: [response.status], what
    [response.text()] gives, whether the content type is JSON, and what the
    body decodes to as JSON, if it does. *)
Record Response : Type := mkResponse {
  status : Z;
  text : string;
  json_content_type : bool;
  body_json : option value
}.

(** What one round trip comes to: a response, or an exception out of
    [session.request] or [response.text()]. *)
Inductive outcome : Type :=
| Responds (r : Response)
| Fails (e : exn).

(** [response.json()]: the content type is checked first, then the body is
    decoded. *)
Definition Response_json (r : Response) : result value :=
  if json_content_type r then
    match body_json r with
    | Some v => Ok v
    | None => Raise JSONDecodeError
    end
  else Raise ContentTypeError.

Record ClientSession : Type := mkSession { closed : bool }.

End Http.

(** The world around the client: the server, which answers the [n]-th
    request sent to it, the requests sent so far, the arguments of the calls
    of [asyncio.sleep] so far, and the clock. *)
Record World : Type := mkWorld {
  server : nat -> Http.Request -> Http.outcome;
  sent : list Http.Request;
  slept : list Z;
  clock : PyLib.Clock
}.

(** ** api_client.py *)

(** The fields of a [BankingAPIClient]. *)
Record Client : Type := mkClient {
  config : Config.t;
  session : option Http.ClientSession;
  auth_token : option AuthToken.t
}.

Record State : Type := mkState { client : Client; world : World }.

(** A computation that reads and writes the client and the world, and
    returns or raises. *)
Definition M (A : Type) : Type := State -> result A * State.

Definition ret {A} (a : A) : M A := fun st => (Ok a, st).

Definition raise {A} (e : exn) : M A := fun st => (Raise e, st).

Definition bind {A B} (m : M A) (k : A -> M B) : M B :=
  fun st =>
    match m st with
    | (Ok a, st') => k a st'
    | (Raise e, st') => (Raise e, st')
    end.

(** [try: m  except <catches>: handler] *)
Definition try_except {A} (m : M A) (catches : exn -> bool)
    (handler : exn -> M A) : M A :=
  fun st =>
    match m st with
    | (Raise e, st') => if catches e then handler e st' else (Raise e, st')
    | r => r
    end.

(** [except Exception]: every exception of the model is one. *)
Definition is_Exception (e : exn) : bool := true.

Definition lift {A} (r : result A) : M A := fun st => (r, st).

Declare Scope py_scope.
Delimit Scope py_scope with py.
Notation "x <- m ;; k" := (bind m (fun x => k))
  (at level 61, m at next level, right associativity) : py_scope.
Notation "m ;;; k" := (bind m (fun _ => k))
  (at level 61, right associativity) : py_scope.
Open Scope py_scope.

Definition get_self : M Client := fun st => (Ok (client st), st).

Definition set_self_auth_token (tok : option AuthToken.t) : M unit :=
  fun st =>
    (Ok tt, mkState (mkClient (config (client st)) (session (client st)) tok)
                    (world st)).

Definition set_self_session (s : option Http.ClientSession) : M unit :=
  fun st =>
    (Ok tt, mkState (mkClient (config (client st)) s (auth_token (client st)))
                    (world st)).

(** [await asyncio.sleep(secs)] *)
Definition sleep (secs : Z) (st : State) : State :=
  mkState (client st)
          (mkWorld (server (world st)) (sent (world st))
                   (slept (world st) ++ [secs]) (clock (world st))).

(** Running something that only reads the clock. *)
Definition with_clock {A} (f : PyLib.Clock -> A * PyLib.Clock) (st : State)
  : A * State :=
  let (a, c) := f (clock (world st)) in
  (a, mkState (client st)
              (mkWorld (server (world st)) (sent (world st))
                       (slept (world st)) c)).

(** [async with self.session.request(...) as response:
       response_text = await response.text()]
    A closed session refuses the request before anything is sent. *)
Definition session_request (s : Http.ClientSession) (req : Http.Request)
    (st : State) : Http.outcome * State :=
  if Http.closed s then (Http.Fails (RuntimeError "Session is closed"), st)
  else
    let w := world st in
    (server w (length (sent w)) req,
     mkState (client st)
             (mkWorld (server w) (sent w ++ [req]) (slept w) (clock w))).

(** [obj.get(key, default)]: only a [dict] has the method. *)
Definition value_get (obj : Py.value) (key : string) (default : Py.value)
  : result Py.value :=
  match obj with
  | Py.VDict d => Ok (Py.get_default d key default)
  | _ => Raise AttributeError
  end.

(** [len(obj)] *)
Definition py_len (obj : Py.value) : result Z :=
  match obj with
  | Py.VStr s => Ok (Z.of_nat (String.length s))
  | Py.VList l => Ok (Z.of_nat (List.length l))
  | Py.VDict d => Ok (Z.of_nat (List.length d))
  | _ => Raise TypeError
  end.

Definition newline : string := String (ascii_of_N 10) "".

Module BankingAPIClient.
Import Py PyLib.

(** [BankingAPIClient(config)] *)
Definition __init__ (config : Config.t) : Client := mkClient config None None.

Definition __aenter__ : M unit :=
  set_self_session (Some (Http.mkSession false)).

Definition __aexit__ : M unit :=
  self <- get_self ;;
  match session self with
  | Some _ => set_self_session (Some (Http.mkSession true))
  | None => ret tt
  end.

Definition set_auth_token (token : value) : M unit :=
  set_self_auth_token (Some (AuthToken.of_token token)).

(** The headers of a request: [Authorization] when a token is set and has
    not expired. *)
Definition auth_headers (st : State) : list (string * string) * State :=
  match auth_token (client st) with
  | None => ([], st)
  | Some tok =>
      let (expired, st') := with_clock (AuthToken.is_expired tok) st in
      if expired then ([], st')
      else ([("Authorization", AuthToken.get_header_value tok)], st')
  end.

Definition api_error_msg (r : Http.Response) : string :=
  "API error (status " ++ str_int (Http.status r) ++ "): " ++ Http.text r.

Definition timeout_msg (cfg : Config.t) (method url : string) : string :=
  "Request timeout after " ++ str_int (Config.timeout cfg) ++ "s: "
  ++ method ++ " " ++ url.

Definition connection_msg (detail : string) : string :=
  "Connection failed: " ++ detail.

Definition unreachable_msg (cfg : Config.t) (detail : string) : string :=
  connection_msg detail ++ newline
  ++ "Please ensure the banking server is running at " ++ Config.base_url cfg.

(** What [_make_request] does with a response, inside the [try]. *)
Definition handle_response (r : Http.Response) : result value :=
  if 400 <=? Http.status r
  then Raise (BankingAPIError (api_error_msg r) (Some (Http.status r)))
  else match Http.Response_json r with
       | Raise ContentTypeError =>
           if Http.status r <? 300
           then Ok (VDict [("status", VStr "success");
                           ("message", VStr (Http.text r))])
           else Raise (BankingAPIError
                         ("Invalid JSON response: " ++ Http.text r) None)
       | other => other
       end.

(** One attempt of [_make_request], from the URL to the end of the [try]
    body: what the body returns or raises. *)
Definition attempt (s : Http.ClientSession) (method endpoint : string)
    (json_data : option value) (params : option dict) (st : State)
  : result value * State :=
  let url := Config.base_url (config (client st)) ++ endpoint in
  let (headers, st1) := auth_headers st in
  match session_request s (Http.mkRequest method url json_data params headers)
                        st1 with
  | (Http.Responds r, st2) => (handle_response r, st2)
  | (Http.Fails e, st2) => (Raise e, st2)
  end.

(** Nothing in an attempt writes to the client. *)
Lemma auth_headers_client (st : State) :
  client (snd (auth_headers st)) = client st.
Proof.
  unfold auth_headers, with_clock, AuthToken.is_expired.
  destruct (auth_token (client st)) as [tok|]; [|reflexivity].
  destruct (AuthToken.expires_at tok) as [e|]; simpl.
  - destruct (datetime_geb _ e); reflexivity.
  - reflexivity.
Qed.

Lemma session_request_client s req st :
  client (snd (session_request s req st)) = client st.
Proof. unfold session_request. destruct (Http.closed s); reflexivity. Qed.

Lemma attempt_client s method endpoint json_data params st :
  client (snd (attempt s method endpoint json_data params st)) = client st.
Proof.
  unfold attempt.
  pose proof (auth_headers_client st) as Hh.
  destruct (auth_headers st) as [headers st1]. simpl in Hh.
  match goal with
  | |- context [session_request s ?req st1] =>
      pose proof (session_request_client s req st1) as Hr;
      destruct (session_request s req st1) as [[r|e] st2]
  end; simpl in *; congruence.
Qed.

Definition inspect {A} (a : A) : {b : A | a = b} := exist _ a eq_refl.

(** [self._make_request(method, endpoint, json_data, params, retry_count)].
    The recursion is the source's: a timeout or a connection error with
    [retry_count < max_retries] sleeps and calls again with
    [retry_count + 1], so [max_retries - retry_count] decreases. *)
Equations? _make_request (method endpoint : string)
    (json_data : option value) (params : option dict) (retry_count : nat)
    (st : State) : result value * State
  by wf (Z.to_nat (Config.max_retries (config (client st))
                   - Z.of_nat retry_count)) lt :=
_make_request method endpoint json_data params retry_count st with
    session (client st) => {
  | None :=
      (Raise (RuntimeError
         "Client session not initialized. Use async context manager."), st);
  | Some s with
      inspect (attempt s method endpoint json_data params st) => {
      | exist _ (Raise TimeoutError, st1) Heq with
          Z_lt_dec (Z.of_nat retry_count)
                   (Config.max_retries (config (client st1))) => {
          | left Hlt :=
              _make_request method endpoint json_data params (S retry_count)
                            (sleep (2 ^ Z.of_nat retry_count) st1);
          | right _ :=
              (Raise (ConnectionError
                 (timeout_msg (config (client st1)) method
                    (Config.base_url (config (client st1)) ++ endpoint))),
               st1) };
      | exist _ (Raise (ClientConnectionError detail), st1) Heq with
          Z_lt_dec (Z.of_nat retry_count)
                   (Config.max_retries (config (client st1))) => {
          | left Hlt :=
              _make_request method endpoint json_data params (S retry_count)
                            (sleep (2 ^ Z.of_nat retry_count) st1);
          | right _ :=
              (Raise (ConnectionError
                 (unreachable_msg (config (client st1)) detail)), st1) };
      | exist _ (r, st1) _ := (r, st1) } }.
Proof.
  all: pose proof (attempt_client s method endpoint json_data params st) as Hc;
    rewrite Heq in Hc; simpl in Hc; simpl; rewrite Hc in *; lia.
Qed.

Definition not_initialized : exn :=
  RuntimeError "Client session not initialized. Use async context manager.".

(** The recursion of [_make_request] as the source writes it. *)
Lemma _make_request_eq method endpoint json_data params retry_count st :
  _make_request method endpoint json_data params retry_count st =
  match session (client st) with
  | None => (Raise not_initialized, st)
  | Some s =>
      match attempt s method endpoint json_data params st with
      | (Raise TimeoutError, st1) =>
          if Z.of_nat retry_count <? Config.max_retries (config (client st1))
          then _make_request method endpoint json_data params
                             (S retry_count)
                             (sleep (2 ^ Z.of_nat retry_count) st1)
          else (Raise (ConnectionError
                  (timeout_msg (config (client st1)) method
                     (Config.base_url (config (client st1)) ++ endpoint))),
                st1)
      | (Raise (ClientConnectionError detail), st1) =>
          if Z.of_nat retry_count <? Config.max_retries (config (client st1))
          then _make_request method endpoint json_data params
                             (S retry_count)
                             (sleep (2 ^ Z.of_nat retry_count) st1)
          else (Raise (ConnectionError
                  (unreachable_msg (config (client st1)) detail)), st1)
      | (r, st1) => (r, st1)
      end
  end.
Proof.
  funelim (_make_request method endpoint json_data params retry_count st);
    repeat match goal with
           | H : sigmaI _ _ _ = _ |- _ => clear H
           | H : session _ = _ |- _ => rewrite H; clear H
           | H : attempt _ _ _ _ _ _ = _ |- _ => rewrite H; clear H
           end;
    try reflexivity.
  all: match goal with
       | |- context [?a <? ?b] => destruct (Z.ltb_spec a b)
       end; try reflexivity; try contradiction; try lia.
Qed.

(** A call with the default [retry_count=0], as every method makes it. *)
Definition request (method endpoint : string) (json_data : option value)
    (params : option dict) : M value :=
  _make_request method endpoint json_data params 0.

Definition get_auth_token (username password claim : string) : M value :=
  response <- request "POST" "/authToken"
                (Some (VDict [("username", VStr username);
                              ("password", VStr password)]))
                (Some [("claim", VStr claim)]) ;;
  token <- lift (value_get response "token" VNone) ;;
  if negb (truthy token)
  then raise (BankingAPIError "No token in authentication response" None)
  else ret token.

Definition validate_account (account_number : string) : M value :=
  try_except
    (response <- request "GET" ("/accounts/validate/" ++ account_number)
                   None None ;;
     is_valid <- lift (value_get response "isValid" (VBool false)) ;;
     ret is_valid)
    is_BankingAPIError
    (fun _ => ret (VBool false)).

(** The debug line formats [response.get('balance', 0)] and
    [response.get('currency', 'USD')] before the response is returned. *)
Definition get_account_balance (account_number : string) : M value :=
  response <- request "GET" ("/accounts/balance/" ++ account_number)
                None None ;;
  lift (value_get response "balance" (VInt 0)) ;;;
  lift (value_get response "currency" (VStr "USD")) ;;;
  ret response.

(** The info line formats [len(accounts)] before the accounts are
    returned. *)
Definition list_accounts : M value :=
  response <- request "GET" "/accounts" None None ;;
  match response with
  | VDict d =>
      match lookup "accounts" d with
      | Some accounts => lift (py_len accounts) ;;; ret accounts
      | None => ret (VList [])
      end
  | VList l => ret (VList l)
  | _ => ret (VList [])
  end.

Definition transfer (transfer_data : value) : M value :=
  request "POST" "/transfer" (Some transfer_data) None.

Definition validate_token (token : value) : M value :=
  try_except
    (self <- get_self ;;
     let original_token := auth_token self in
     set_self_auth_token (Some (AuthToken.of_token token)) ;;;
     response <- request "POST" "/auth/validate" None None ;;
     set_self_auth_token original_token ;;;
     is_valid <- lift (value_get response "valid" (VBool false)) ;;
     ret is_valid)
    is_BankingAPIError
    (fun _ => ret (VBool false)).

(** [account_number] is [None] or a string; it is sent when it is a
    non-empty string. *)
Definition history_params (account_number : option string) (limit : Z)
  : dict :=
  match account_number with
  | Some a => if str_falsy a then [("limit", VInt limit)]
              else [("limit", VInt limit); ("accountNumber", VStr a)]
  | None => [("limit", VInt limit)]
  end.

Definition get_transaction_history (account_number : option string)
    (limit : Z) : M value :=
  let params := history_params account_number limit in
  response <- request "GET" "/transactions/history" None (Some params) ;;
  lift (value_get response "transactions" (VList [])).

End BankingAPIClient.

(** ** services.py *)

(** The service holds the client it was given: its methods run on the same
    client state. *)
Module TransferService.
Import Py.

(** [None] of [Optional[str]] is [None] of [option]. *)
Definition authenticate (username password : string)
  : M (option value) :=
  try_except
    (token <- BankingAPIClient.get_auth_token username password "transfer" ;;
     BankingAPIClient.set_auth_token token ;;;
     ret (Some token))
    is_Exception
    (fun _ => ret None).

Definition validate_account (account_number : string) : M value :=
  try_except (BankingAPIClient.validate_account account_number)
             is_Exception
             (fun _ => ret (VBool false)).

Definition get_balance (account_number : string) : M value :=
  try_except (BankingAPIClient.get_account_balance account_number)
             is_Exception
             (fun e => raise e).

Definition list_accounts : M value :=
  try_except BankingAPIClient.list_accounts
             is_Exception
             (fun e => raise e).

Definition validate_token (token : value) : M value :=
  try_except (BankingAPIClient.validate_token token)
             is_Exception
             (fun _ => ret (VBool false)).

Definition get_transaction_history (account_number : option string)
    (limit : Z) : M value :=
  try_except (BankingAPIClient.get_transaction_history account_number limit)
             is_Exception
             (fun e => raise e).

End TransferService.

(** ** One attempt of a request *)

Section Attempt.
Import Py PyLib BankingAPIClient.

(** The request one attempt sends. *)
Definition request_of (method endpoint : string) (json_data : option value)
    (params : option dict) (st : State) : Http.Request :=
  Http.mkRequest method (Config.base_url (config (client st)) ++ endpoint)
                 json_data params (fst (auth_headers st)).

Definition outcome_result (o : Http.outcome) : result value :=
  match o with
  | Http.Responds r => handle_response r
  | Http.Fails e => Raise e
  end.

Definition next_outcome (st : State) (req : Http.Request) : Http.outcome :=
  server (world st) (length (sent (world st))) req.

Lemma auth_headers_world st :
  server (world (snd (auth_headers st))) = server (world st)
  /\ sent (world (snd (auth_headers st))) = sent (world st)
  /\ slept (world (snd (auth_headers st))) = slept (world st).
Proof.
  unfold auth_headers, with_clock, AuthToken.is_expired.
  destruct (auth_token (client st)) as [tok|]; [|auto].
  destruct (AuthToken.expires_at tok) as [e|]; simpl; [|auto].
  destruct (datetime_geb _ e); simpl; auto.
Qed.

Lemma attempt_open s method endpoint json_data params st :
  Http.closed s = false ->
  let req := request_of method endpoint json_data params st in
  let st1 := snd (attempt s method endpoint json_data params st) in
  fst (attempt s method endpoint json_data params st)
    = outcome_result (next_outcome st req)
  /\ client st1 = client st
  /\ server (world st1) = server (world st)
  /\ sent (world st1) = (sent (world st) ++ [req])%list
  /\ slept (world st1) = slept (world st).
Proof.
  intros Hopen req st1. subst req st1.
  unfold attempt, request_of, next_outcome, session_request.
  pose proof (auth_headers_client st) as Hc.
  pose proof (auth_headers_world st) as (Hs & Hn & Hz).
  destruct (auth_headers st) as [headers st0]. cbn [fst snd] in *.
  rewrite Hopen. cbv zeta. rewrite Hs, Hn, Hz, Hc.
  match goal with
  | |- context [server (world st) ?n ?r] =>
      destruct (server (world st) n r) as [resp|e]
  end; cbn; auto.
Qed.

(** A failure that [_make_request] retries. *)
Definition transient (o : Http.outcome) : bool :=
  match o with
  | Http.Fails TimeoutError => true
  | Http.Fails (ClientConnectionError _) => true
  | _ => false
  end.

(** [handle_response] never raises what the retry branches catch. *)
Lemma handle_response_final r :
  match handle_response r with
  | Raise TimeoutError => False
  | Raise (ClientConnectionError _) => False
  | _ => True
  end.
Proof.
  unfold handle_response, Http.Response_json.
  destruct (400 <=? Http.status r); [exact I|].
  destruct (Http.json_content_type r).
  - destruct (Http.body_json r); exact I.
  - destruct (Http.status r <? 300); exact I.
Qed.

(** What an error status becomes. *)
Lemma handle_response_error r :
  400 <= Http.status r ->
  handle_response r
  = Raise (BankingAPIError (api_error_msg r) (Some (Http.status r))).
Proof.
  intro Hstatus. unfold handle_response.
  destruct (Z.leb_spec 400 (Http.status r)); [reflexivity | lia].
Qed.

(** With an open session and a server that answers, one attempt settles the
    call: one request goes out and nothing sleeps. *)
Lemma _make_request_responds method endpoint json_data params retry_count st s r :
  session (client st) = Some s ->
  Http.closed s = false ->
  (forall req, next_outcome st req = Http.Responds r) ->
  let st' := snd (_make_request method endpoint json_data params retry_count st) in
  fst (_make_request method endpoint json_data params retry_count st)
    = handle_response r
  /\ client st' = client st
  /\ server (world st') = server (world st)
  /\ sent (world st')
     = (sent (world st)
        ++ [request_of method endpoint json_data params st])%list
  /\ slept (world st') = slept (world st).
Proof.
  intros Hs Hopen Hresp. cbv zeta.
  rewrite _make_request_eq, Hs.
  destruct (attempt_open s method endpoint json_data params st Hopen)
    as (Hfst & Hc & Hsv & Hsent & Hsl).
  rewrite Hresp in Hfst. cbn in Hfst.
  destruct (attempt s method endpoint json_data params st) as [res st1].
  cbn [fst snd] in *. subst res.
  pose proof (handle_response_final r) as Hfin.
  destruct (handle_response r) as [v|e]; [cbn; auto|].
  destruct e; try contradiction; cbn; auto.
Qed.



Lemma contains_mid (pre sub post : string) : contains (pre ++ sub ++ post) sub.
Proof. exists pre, post. reflexivity. Qed.







End Attempt.

(** ** Sample worlds *)

Import Py PyLib BankingAPIClient.

Definition noon : datetime := mkDatetime 2025 11 4 12 0 0 0.

Definition steady_clock : Clock := mkClock (fun _ => noon) 0.

(** A client inside its [async with] block, with no token, in a world where
    nothing has happened yet. *)
Definition fresh (cfg : Config.t) (srv : nat -> Http.Request -> Http.outcome)
  : State :=
  mkState (mkClient cfg (Some (Http.mkSession false)) None)
          (mkWorld srv [] [] steady_clock).

Definition json_response (status : Z) (text : string) (v : value)
  : Http.Response :=
  Http.mkResponse status text true (Some v).

Definition text_response (status : Z) (text : string) : Http.Response :=
  Http.mkResponse status text false None.


Definition always (r : Http.Response) (_ : nat) (_ : Http.Request)
  : Http.outcome :=
  Http.Responds r.

Definition envelope (text : string) : value :=
  VDict [("status", VStr "success"); ("message", VStr text)].

(** ** The transport: retries and responses *)

Section Transport.
Import Py PyLib BankingAPIClient.

Variables (method endpoint : string) (json_data : option value)
          (params : option dict).
Variables (st : State) (s : Http.ClientSession).
Hypothesis Hsession : session (client st) = Some s.
Hypothesis Hopen : Http.closed s = false.

Let out := _make_request method endpoint json_data params 0 st.
Let max_retries := Config.max_retries (config (client st)).


End Transport.


Section Responses.

Variables (method endpoint : string) (json_data : option value)
          (params : option dict).
Variables (st : State) (s : Http.ClientSession) (r : Http.Response).
Hypothesis Hsession : session (client st) = Some s.
Hypothesis Hopen : Http.closed s = false.
Hypothesis Hresponds : forall req, next_outcome st req = Http.Responds r.

Let out := _make_request method endpoint json_data params 0 st.

(** C6: a response with status 400 or more fails the call at once: one
    request, no sleep, and a [BankingAPIError] that carries the status code
    and whose message ends with the raw body.  So with a server answering
    404, [validate_account] returns [False] and [get_account_balance] raises
    the [BankingAPIError] with status 404. *)
Theorem error_status_raises_at_once :
  400 <= Http.status r ->
  fst out
  = Raise (BankingAPIError
             ("API error (status " ++ str_int (Http.status r) ++ "): "
              ++ Http.text r)
             (Some (Http.status r)))
  /\ length (sent (world (snd out))) = S (length (sent (world st)))
  /\ slept (world (snd out)) = slept (world st)
  /\ forall account_number,
       fst (validate_account account_number st) = Ok (VBool false)
       /\ fst (get_account_balance account_number st)
          = Raise (BankingAPIError (api_error_msg r) (Some (Http.status r))).
Proof.
  intros Hstatus. subst out.
  pose proof (handle_response_error r Hstatus) as Hh.
  assert (Hreq : forall m e j p,
            fst (_make_request m e j p 0 st)
            = Raise (BankingAPIError (api_error_msg r) (Some (Http.status r)))).
  { intros m e j p.
    destruct (_make_request_responds m e j p 0 st s r Hsession Hopen Hresponds)
      as (Hres & _). now rewrite Hres. }
  destruct (_make_request_responds method endpoint json_data params 0 st s r
              Hsession Hopen Hresponds) as (Hres & _ & _ & Hsent & Hsl).
  rewrite Hres, Hh, Hsent, Hsl, length_app. cbn [length].
  repeat split; try reflexivity; try lia.
  - unfold validate_account, try_except, bind, request.
    specialize (Hreq "GET" ("/accounts/validate/" ++ account_number) None None).
    destruct (_make_request _ _ _ _ _ _) as [res st']. cbn in Hreq. subst res.
    reflexivity.
  - unfold get_account_balance, bind, request.
    specialize (Hreq "GET" ("/accounts/balance/" ++ account_number) None None).
    destruct (_make_request _ _ _ _ _ _) as [res st']. cbn in Hreq. subst res.
    reflexivity.
Qed.

(** C3, as the code has it: when the response is not declared as JSON, so
    that [response.json()] raises [ContentTypeError], a status below 300
    gives the envelope [{status: success, message: <raw body>}], and a
    status from 300 to 399 raises a [BankingAPIError] without status code. *)
Theorem non_json_response_envelope :
  Http.json_content_type r = false ->
  (Http.status r < 300 -> fst out = Ok (envelope (Http.text r)))
  /\ (300 <= Http.status r < 400 ->
      fst out = Raise (BankingAPIError
                         ("Invalid JSON response: " ++ Http.text r) None)).
Proof.
  intros Hct. subst out.
  destruct (_make_request_responds method endpoint json_data params 0 st s r
              Hsession Hopen Hresponds) as (Hres & _).
  rewrite Hres. unfold handle_response, Http.Response_json. rewrite Hct.
  split; intros Hst.
  - destruct (Z.leb_spec 400 (Http.status r)); [lia|].
    destruct (Z.ltb_spec (Http.status r) 300); [reflexivity | lia].
  - destruct (Z.leb_spec 400 (Http.status r)); [lia|].
    destruct (Z.ltb_spec (Http.status r) 300); [lia | reflexivity].
Qed.

End Responses.

Definition not_found : Http.Response :=
  text_response 404 "Account not found".

Lemma error_status_raises_at_once_witness :
  let st := fresh Config.default (always not_found) in
  fst (validate_account "ACC9999" st) = Ok (VBool false)
  /\ fst (get_account_balance "ACC9999" st)
     = Raise (BankingAPIError "API error (status 404): Account not found"
                              (Some 404)).
Proof.
  intro st.
  destruct (error_status_raises_at_once "GET" "/accounts/balance/ACC9999"
              None None st (Http.mkSession false) not_found eq_refl eq_refl
              (fun _ => eq_refl)) as (_ & _ & _ & H).
  - cbn. lia.
  - exact (H "ACC9999").
Defined.

Lemma non_json_response_envelope_witness :
  fst (_make_request "POST" "/transfer" None None 0
         (fresh Config.default (always (text_response 200 "OK"))))
  = Ok (envelope "OK").
Proof.
  destruct (non_json_response_envelope "POST" "/transfer" None None
              (fresh Config.default (always (text_response 200 "OK")))
              (Http.mkSession false) (text_response 200 "OK")
              eq_refl eq_refl (fun _ => eq_refl) eq_refl) as [H _].
  apply H. cbn. lia.
Defined.

(** C3 as stated fails: a redirect with a body that is no JSON is below 400
    and yet gives no envelope. *)
Lemma redirect_gives_no_envelope :
  let r := text_response 302 "Moved" in
  Http.status r < 400
  /\ Http.body_json r = None
  /\ fst (_make_request "GET" "/accounts" None None 0
            (fresh Config.default (always r)))
     = Raise (BankingAPIError "Invalid JSON response: Moved" None)
  /\ fst (_make_request "GET" "/accounts" None None 0
            (fresh Config.default (always r)))
     <> Ok (envelope (Http.text r)).
Proof.
  cbv zeta. split; [cbn; lia|]. split; [reflexivity|].
  assert (E : fst (_make_request "GET" "/accounts" None None 0
                     (fresh Config.default (always (text_response 302 "Moved"))))
              = Raise (BankingAPIError "Invalid JSON response: Moved" None))
    by (vm_compute; reflexivity).
  split; [exact E | rewrite E; discriminate].
Qed.

(** ** What a call leaves behind *)

Section Frame.
Import Py PyLib BankingAPIClient.

Definition authorized_by (tok : AuthToken.t) (req : Http.Request) : Prop :=
  Http.headers req = [("Authorization", AuthToken.get_header_value tok)].

Lemma auth_headers_unexpiring st tok :
  auth_token (client st) = Some tok ->
  AuthToken.expires_at tok = None ->
  fst (auth_headers st) = [("Authorization", AuthToken.get_header_value tok)].
Proof.
  intros Ht He. unfold auth_headers, with_clock, AuthToken.is_expired.
  rewrite Ht, He. reflexivity.
Qed.

(** What a call may change: not the client, not the server; it may send
    requests, all authorized when the client holds a token that does not
    expire. *)
Definition frame (st st' : State) : Prop :=
  client st' = client st
  /\ server (world st') = server (world st)
  /\ exists new,
       sent (world st') = (sent (world st) ++ new)%list
       /\ forall tok,
            auth_token (client st) = Some tok ->
            AuthToken.expires_at tok = None ->
            Forall (authorized_by tok) new.

Lemma frame_refl st : frame st st.
Proof.
  repeat split; auto. exists []. rewrite app_nil_r. auto.
Qed.

Lemma frame_trans a b c : frame a b -> frame b c -> frame a c.
Proof.
  intros (Hc & Hs & n1 & Hn1 & Ha1) (Hc' & Hs' & n2 & Hn2 & Ha2).
  repeat split; try congruence.
  exists (n1 ++ n2)%list. rewrite Hn2, Hn1, app_assoc. split; auto.
  intros tok Ht He. apply Forall_app. split; auto.
  apply Ha2; congruence.
Qed.

Lemma frame_sleep secs st : frame st (sleep secs st).
Proof.
  repeat split; auto. exists []. cbn. rewrite app_nil_r. auto.
Qed.

(** One attempt leaves the client alone and sends at most the request it
    built. *)
Lemma attempt_frame s method endpoint json_data params st :
  frame st (snd (attempt s method endpoint json_data params st)).
Proof.
  split; [apply attempt_client|].
  assert (Hauth : forall tok,
            auth_token (client st) = Some tok ->
            AuthToken.expires_at tok = None ->
            Forall (authorized_by tok)
                   [request_of method endpoint json_data params st]).
  { intros tok Ht He. constructor; [|constructor].
    unfold authorized_by, request_of. cbn.
    apply auth_headers_unexpiring; assumption. }
  destruct (Http.closed s) eqn:Hclosed.
  - unfold attempt, session_request. rewrite Hclosed.
    pose proof (auth_headers_world st) as (Hs & Hn & _).
    destruct (auth_headers st) as [headers st0]. cbn in *.
    split; [exact Hs|]. exists []. rewrite app_nil_r. auto.
  - destruct (attempt_open s method endpoint json_data params st Hclosed)
      as (_ & _ & Hsv & Hsent & _).
    split; [exact Hsv|]. eauto.
Qed.

(** The same for a whole call, whatever the retries. *)
Lemma _make_request_frame method endpoint json_data params :
  forall n retry_count st,
    (Z.to_nat (Config.max_retries (config (client st)) - Z.of_nat retry_count)
     <= n)%nat ->
    frame st (snd (_make_request method endpoint json_data params
                                 retry_count st)).
Proof.
  induction n as [|n IH]; intros rc st Hn; rewrite _make_request_eq.
  all: destruct (session (client st)) as [s|]; [|apply frame_refl].
  all: pose proof (attempt_frame s method endpoint json_data params st) as Hf.
  all: destruct (attempt s method endpoint json_data params st) as [res st1].
  all: cbn [snd] in Hf.
  all: assert (Hc : client st1 = client st) by apply Hf.
  all: destruct res as [v|e]; [exact Hf|].
  all: destruct e; try exact Hf.
  all: rewrite Hc;
    destruct (Z.ltb_spec (Z.of_nat rc) (Config.max_retries (config (client st))));
    [|exact Hf].
  1,2: lia.
  all: apply (frame_trans _ st1 _ Hf).
  all: apply (frame_trans _ (sleep (2 ^ Z.of_nat rc) st1) _ (frame_sleep _ _)).
  all: apply IH; cbn; rewrite Hc; lia.
Qed.

Lemma request_frame method endpoint json_data params st :
  frame st (snd (request method endpoint json_data params st)).
Proof.
  apply (_make_request_frame method endpoint json_data params
           (Z.to_nat (Config.max_retries (config (client st)) - Z.of_nat 0))).
  lia.
Qed.

End Frame.

(** ** The token of the client *)

Section Token.
Import Py PyLib BankingAPIClient.

(** C10: [TransferService.authenticate] never raises.  When it returns a
    token, the client holds that token, without expiry, and from then on, as
    long as the client keeps it, every request of every call carries the
    [Authorization] header made of it.  When it returns [None], the token of
    the client is the one it had. *)
Theorem authenticate_sets_token username password st :
  match TransferService.authenticate username password st with
  | (Ok (Some token), st') =>
      auth_token (client st') = Some (AuthToken.of_token token)
      /\ forall st2 method endpoint json_data params,
           auth_token (client st2) = auth_token (client st') ->
           exists new,
             sent (world (snd (request method endpoint json_data params st2)))
             = (sent (world st2) ++ new)%list
             /\ Forall (fun req =>
                          Http.headers req
                          = [("Authorization", "Bearer " ++ py_str token)])
                       new
  | (Ok None, st') => auth_token (client st') = auth_token (client st)
  | (Raise _, _) => False
  end.
Proof.
  unfold TransferService.authenticate, get_auth_token, set_auth_token,
    set_self_auth_token, try_except, bind.
  pose proof (request_frame "POST" "/authToken"
                (Some (VDict [("username", VStr username);
                              ("password", VStr password)]))
                (Some [("claim", VStr "transfer")]) st) as (Hc & _).
  destruct (request "POST" "/authToken" _ _ st) as [[response|e] st1];
    cbn [fst snd] in *; [|cbn; now rewrite Hc].
  unfold lift. destruct (value_get response "token" VNone) as [token|e];
    [|cbn; now rewrite Hc].
  destruct (truthy token) eqn:Htruthy; cbn; [|now rewrite Hc].
  split; [reflexivity|].
  intros st2 method endpoint json_data params Htok.
  destruct (request_frame method endpoint json_data params st2)
    as (_ & _ & new & Hsent & Hnew).
  exists new. split; [exact Hsent|].
  apply (Hnew (AuthToken.of_token token)); [exact Htok | reflexivity].
Qed.

(** What [validate_token] does with the token of the client when the server
    answers with an error status: the token under test stays. *)
Lemma validate_token_on_error_status token st s r :
  session (client st) = Some s ->
  Http.closed s = false ->
  (forall req, next_outcome st req = Http.Responds r) ->
  400 <= Http.status r ->
  fst (validate_token token st) = Ok (VBool false)
  /\ auth_token (client (snd (validate_token token st)))
     = Some (AuthToken.of_token token).
Proof.
  intros Hs Hopen Hresp Hstatus.
  unfold validate_token, try_except, bind, get_self, set_self_auth_token.
  set (st0 := mkState _ (world st)).
  destruct (_make_request_responds "POST" "/auth/validate" None None 0 st0 s
              r Hs Hopen Hresp) as (Hres & _).
  rewrite (handle_response_error r Hstatus) in Hres.
  pose proof (request_frame "POST" "/auth/validate" None None st0) as (Hc & _).
  unfold request in *.
  destruct (_make_request "POST" "/auth/validate" None None 0 st0)
    as [res st1]. cbn [fst snd] in *. subst res. cbn.
  split; [reflexivity|]. now rewrite Hc.
Qed.

(** When the server answers with a success status and a JSON object,
    [validate_token] does put the token of the client back. *)
Lemma validate_token_restores_on_success token st s status text d :
  session (client st) = Some s ->
  Http.closed s = false ->
  (forall req, next_outcome st req
               = Http.Responds (json_response status text (VDict d))) ->
  status < 400 ->
  fst (validate_token token st) = Ok (get_default d "valid" (VBool false))
  /\ auth_token (client (snd (validate_token token st)))
     = auth_token (client st).
Proof.
  intros Hs Hopen Hresp Hstatus.
  unfold validate_token, try_except, bind, get_self, set_self_auth_token.
  set (st0 := mkState _ (world st)).
  destruct (_make_request_responds "POST" "/auth/validate" None None 0 st0 s
              (json_response status text (VDict d)) Hs Hopen Hresp)
    as (Hres & _).
  unfold request.
  destruct (_make_request "POST" "/auth/validate" None None 0 st0)
    as [res st1]. cbn [fst snd] in *. subst res.
  unfold handle_response. cbn.
  destruct (Z.leb_spec 400 status); [lia|]. cbn. auto.
Qed.

End Token.

Definition unauthorized : Http.Response :=
  json_response 401 "{}" (VDict []).

(** The client holds a session token and checks another one; the server
    rejects the check with 401. *)
Definition logged_in : State :=
  mkState (mkClient Config.default (Some (Http.mkSession false))
                    (Some (AuthToken.of_token (VStr "session-token"))))
          (mkWorld (always unauthorized) [] [] steady_clock).

(** C1 fails on the error path: after the rejected check the client holds
    the token under test, not its own. *)
Theorem validate_token_leaves_override :
  fst (validate_token (VStr "probe") logged_in) = Ok (VBool false)
  /\ auth_token (client logged_in)
     = Some (AuthToken.of_token (VStr "session-token"))
  /\ auth_token (client (snd (validate_token (VStr "probe") logged_in)))
     = Some (AuthToken.of_token (VStr "probe"))
  /\ auth_token (client (snd (validate_token (VStr "probe") logged_in)))
     <> auth_token (client logged_in).
Proof.
  destruct (validate_token_on_error_status (VStr "probe") logged_in
              (Http.mkSession false) unauthorized eq_refl eq_refl
              (fun _ => eq_refl)) as (Hres & Htok); [cbn; lia|].
  rewrite Hres, Htok. repeat split; try reflexivity. discriminate.
Qed.

Definition token_issued : Http.Response :=
  json_response 200 "{...}" (VDict [("token", VStr "jwt-abc")]).

Lemma authenticate_sets_token_witness :
  let st := fresh Config.default (always token_issued) in
  fst (TransferService.authenticate "alice" "any" st)
  = Ok (Some (VStr "jwt-abc"))
  /\ auth_token (client (snd (TransferService.authenticate "alice" "any" st)))
     = Some (AuthToken.mk (VStr "jwt-abc") None "Bearer").
Proof.
  intro st.
  pose proof (authenticate_sets_token "alice" "any" st) as H.
  rewrite (surjective_pairing (TransferService.authenticate "alice" "any" st))
    in H.
  assert (E : fst (TransferService.authenticate "alice" "any" st)
              = Ok (Some (VStr "jwt-abc"))) by (vm_compute; reflexivity).
  rewrite E in H. split; [exact E | exact (proj1 H)].
Defined.

(** ** Delegations of the service and unwrapping of responses *)

Section Delegation.
Import Py PyLib BankingAPIClient.

(** C2, as the code has it: when the request behind
    [get_transaction_history] raises, the client method raises the same
    exception, and the service method logs it and raises it again: nothing
    is swallowed and no empty list is returned. *)
Theorem history_errors_propagate account_number limit st e st' :
  request "GET" "/transactions/history" None
          (Some (history_params account_number limit)) st
  = (Raise e, st') ->
  get_transaction_history account_number limit st = (Raise e, st')
  /\ TransferService.get_transaction_history account_number limit st
     = (Raise e, st').
Proof.
  intros Hreq.
  assert (Hclient : get_transaction_history account_number limit st
                    = (Raise e, st')).
  { unfold get_transaction_history, bind. now rewrite Hreq. }
  split; [exact Hclient|].
  unfold TransferService.get_transaction_history, try_except.
  now rewrite Hclient.
Qed.

(** C4, as the code has it: [list_accounts] raises in neither case; a plain
    list is returned as it is, and an object without the [accounts] key
    gives the empty list. *)
Theorem list_accounts_unwraps response st st' :
  request "GET" "/accounts" None None st = (Ok response, st') ->
  (forall l, response = VList l -> list_accounts st = (Ok (VList l), st'))
  /\ (forall d, response = VDict d -> lookup "accounts" d = None ->
      list_accounts st = (Ok (VList []), st')).
Proof.
  intros Hreq. unfold list_accounts, bind. rewrite Hreq. split.
  - intros l ->. reflexivity.
  - intros d -> Hd. now rewrite Hd.
Qed.

End Delegation.

Definition server_error : Http.Response :=
  text_response 500 "Internal Server Error".

(** C2 as stated fails: the server answers 500 and the service raises. *)
Lemma history_error_is_raised :
  fst (TransferService.get_transaction_history (Some "ACC1000") 10
         (fresh Config.default (always server_error)))
  = Raise (BankingAPIError "API error (status 500): Internal Server Error"
                           (Some 500))
  /\ fst (TransferService.get_transaction_history (Some "ACC1000") 10
            (fresh Config.default (always server_error)))
     <> Ok (VList []).
Proof.
  assert (E : fst (TransferService.get_transaction_history (Some "ACC1000") 10
                     (fresh Config.default (always server_error)))
              = Raise (BankingAPIError
                         "API error (status 500): Internal Server Error"
                         (Some 500))) by (vm_compute; reflexivity).
  split; [exact E | rewrite E; discriminate].
Qed.

Lemma history_errors_propagate_witness :
  fst (TransferService.get_transaction_history (Some "ACC1000") 10
         (fresh Config.default (always server_error)))
  = Raise (BankingAPIError "API error (status 500): Internal Server Error"
                           (Some 500)).
Proof.
  set (st := fresh Config.default (always server_error)).
  pose proof (history_errors_propagate (Some "ACC1000") 10 st
                (BankingAPIError "API error (status 500): Internal Server Error"
                                 (Some 500))
                (snd (request "GET" "/transactions/history" None
                        (Some (history_params (Some "ACC1000") 10)) st))) as H.
  rewrite (proj2 (H ltac:(vm_compute; reflexivity))). reflexivity.
Defined.

Definition two_accounts : value :=
  VList [VDict [("accountId", VStr "ACC1000")];
         VDict [("accountId", VStr "ACC1001")]].

(** C4 as stated fails: a plain list comes back as it is, not emptied. *)
Lemma plain_list_is_returned :
  fst (list_accounts
         (fresh Config.default (always (json_response 200 "[...]" two_accounts))))
  = Ok two_accounts
  /\ fst (list_accounts
            (fresh Config.default
                   (always (json_response 200 "[...]" two_accounts))))
     <> Ok (VList []).
Proof.
  assert (E : fst (list_accounts
                     (fresh Config.default
                            (always (json_response 200 "[...]" two_accounts))))
              = Ok two_accounts) by (vm_compute; reflexivity).
  split; [exact E | rewrite E; discriminate].
Qed.

Lemma list_accounts_unwraps_witness :
  fst (list_accounts
         (fresh Config.default
                (always (json_response 200 "{...}"
                           (VDict [("totalAccounts", VInt 0)])))))
  = Ok (VList []).
Proof.
  set (st := fresh Config.default
               (always (json_response 200 "{...}"
                          (VDict [("totalAccounts", VInt 0)])))).
  pose proof (list_accounts_unwraps (VDict [("totalAccounts", VInt 0)]) st
                (snd (request "GET" "/accounts" None None st))
                ltac:(vm_compute; reflexivity)) as [_ H].
  rewrite (H [("totalAccounts", VInt 0)] eq_refl eq_refl). reflexivity.
Defined.

(** ** The models *)

Section Models.
Import Py PyLib BankingAPIClient.

Lemma str_falsy_iff s : str_falsy s = true <-> s = "".
Proof. destruct s; cbn; split; congruence. Qed.

Lemma strip_empty : strip "" = "".
Proof. reflexivity. Qed.

(** Whether a string is empty once trimmed, as [__post_init__] tests it. *)
Lemma blank_test s :
  str_falsy s || str_falsy (strip s) = true <-> strip s = "".
Proof.
  rewrite orb_true_iff, !str_falsy_iff. split.
  - intros [->|H]; [reflexivity | exact H].
  - auto.
Qed.

(** The checks of [__post_init__] in their order, for every amount that
    compares with zero: the construction fails with the [ValueError] of the
    first check that does not hold, source account not blank, destination
    account not blank, accounts different, amount positive; it succeeds,
    with the three fields as given, exactly when all four hold. *)
Lemma transfer_request_checks from_account to_account amount :
  (strip from_account = "" ->
   TransferRequest.new from_account to_account amount
   = Raise (ValueError "Source account cannot be empty"))
  /\ (strip from_account <> "" -> strip to_account = "" ->
      TransferRequest.new from_account to_account amount
      = Raise (ValueError "Destination account cannot be empty"))
  /\ (strip from_account <> "" -> strip to_account <> "" ->
      from_account = to_account ->
      TransferRequest.new from_account to_account amount
      = Raise (ValueError "Source and destination accounts must be different"))
  /\ (strip from_account <> "" -> strip to_account <> "" ->
      from_account <> to_account -> dec_le0 amount = Some true ->
      TransferRequest.new from_account to_account amount
      = Raise (ValueError "Transfer amount must be positive"))
  /\ (strip from_account <> "" -> strip to_account <> "" ->
      from_account <> to_account -> dec_le0 amount = Some false ->
      TransferRequest.new from_account to_account amount
      = Ok (TransferRequest.mk from_account to_account amount)).
Proof.
  unfold TransferRequest.new, TransferRequest.__post_init__.
  cbn [TransferRequest.from_account TransferRequest.to_account
       TransferRequest.amount].
  split; [|split; [|split; [|split]]].
  all: pose proof (blank_test from_account) as Hf.
  all: pose proof (blank_test to_account) as Ht.
  all: intros.
  all: destruct (str_falsy from_account || str_falsy (strip from_account));
    [ assert (strip from_account = "") by (apply Hf; reflexivity);
      try reflexivity; congruence
    | assert (strip from_account <> "")
        by (intro E; apply Hf in E; discriminate); try congruence ].
  all: destruct (str_falsy to_account || str_falsy (strip to_account));
    [ assert (strip to_account = "") by (apply Ht; reflexivity);
      try reflexivity; congruence
    | assert (strip to_account <> "")
        by (intro E; apply Ht in E; discriminate); try congruence ].
  all: destruct (String.eqb_spec from_account to_account);
    [ try reflexivity; congruence | try congruence ].
  all: match goal with H : dec_le0 _ = _ |- _ => rewrite H end;
    reflexivity.
Qed.

(** With a NaN for the amount the fourth check is the comparison that
    raises: two accounts that pass their checks get
    [decimal.InvalidOperation] out of the constructor. *)
Lemma nan_amount_raises from_account to_account :
  strip from_account <> "" -> strip to_account <> "" ->
  from_account <> to_account ->
  TransferRequest.new from_account to_account NaN = Raise InvalidOperation.
Proof.
  intros Hf Ht Hne.
  unfold TransferRequest.new, TransferRequest.__post_init__.
  cbn [TransferRequest.from_account TransferRequest.to_account
       TransferRequest.amount].
  pose proof (blank_test from_account) as Bf.
  pose proof (blank_test to_account) as Bt.
  destruct (str_falsy from_account || str_falsy (strip from_account));
    [now destruct Hf; apply Bf|].
  destruct (str_falsy to_account || str_falsy (strip to_account));
    [now destruct Ht; apply Bt|].
  destruct (String.eqb_spec from_account to_account); [contradiction|].
  reflexivity.
Qed.

(** No request that was built holds a NaN. *)
Lemma built_amount_compares from_account to_account amount r :
  TransferRequest.new from_account to_account amount = Ok r ->
  r = TransferRequest.mk from_account to_account amount
  /\ dec_le0 amount = Some false.
Proof.
  unfold TransferRequest.new, TransferRequest.__post_init__.
  cbn [TransferRequest.from_account TransferRequest.to_account
       TransferRequest.amount].
  destruct (str_falsy from_account || str_falsy (strip from_account));
    [discriminate|].
  destruct (str_falsy to_account || str_falsy (strip to_account));
    [discriminate|].
  destruct (String.eqb from_account to_account); [discriminate|].
  destruct (dec_le0 amount) as [[|]|]; try discriminate.
  intro H. injection H as <-. split; reflexivity.
Qed.

(** C7 fails at a NaN amount: the construction of
    [TransferRequest("ACC1000", "ACC1001", Decimal("NaN"))] raises
    [decimal.InvalidOperation], which is neither the validation error for an
    amount that is not positive nor a request. *)
Theorem nan_amount_escapes_validation :
  TransferRequest.new "ACC1000" "ACC1001" NaN = Raise InvalidOperation
  /\ (forall msg,
        TransferRequest.new "ACC1000" "ACC1001" NaN <> Raise (ValueError msg))
  /\ (forall r, TransferRequest.new "ACC1000" "ACC1001" NaN <> Ok r)
  /\ TransferRequest.new "ACC1000" "ACC1001" (Finite (mkDecimal 0 0))
     = Raise (ValueError "Transfer amount must be positive")
  /\ TransferRequest.new "ACC1000" "ACC1001" (Infinity true)
     = Raise (ValueError "Transfer amount must be positive").
Proof.
  assert (H : TransferRequest.new "ACC1000" "ACC1001" NaN
              = Raise InvalidOperation)
    by (apply nan_amount_raises; cbn; discriminate).
  rewrite H. split; [reflexivity|].
  split; [discriminate|]. split; [discriminate|].
  split;
    [ apply (transfer_request_checks "ACC1000" "ACC1001"
               (Finite (mkDecimal 0 0)))
    | apply (transfer_request_checks "ACC1000" "ACC1001" (Infinity true)) ];
    cbn; try discriminate; reflexivity.
Qed.

End Models.

Lemma transfer_request_checks_hold :
  TransferRequest.new "ACC1000" "ACC1001" (Finite (mkDecimal 10000 (-2)))
  = Ok (TransferRequest.mk "ACC1000" "ACC1001"
          (Finite (mkDecimal 10000 (-2))))
  /\ TransferRequest.new "   " "ACC1001" (Finite (mkDecimal 10000 (-2)))
     = Raise (ValueError "Source account cannot be empty")
  /\ TransferRequest.new "ACC1000" "ACC1000" (Finite (mkDecimal 10000 (-2)))
     = Raise (ValueError "Source and destination accounts must be different")
  /\ TransferRequest.new "ACC1000" "ACC1001" (Finite (mkDecimal 0 0))
     = Raise (ValueError "Transfer amount must be positive").
Proof.
  split; [|split; [|split]].
  - apply (transfer_request_checks "ACC1000" "ACC1001"
             (Finite (mkDecimal 10000 (-2)))); cbn; try discriminate;
      reflexivity.
  - apply (transfer_request_checks "   " "ACC1001"
             (Finite (mkDecimal 10000 (-2)))); reflexivity.
  - apply (transfer_request_checks "ACC1000" "ACC1000"
             (Finite (mkDecimal 10000 (-2)))); cbn; try discriminate;
      reflexivity.
  - apply (transfer_request_checks "ACC1000" "ACC1001"
             (Finite (mkDecimal 0 0))); cbn; try discriminate; reflexivity.
Defined.

Section Response.
Import Py PyLib BankingAPIClient.

(** The response of the transfer test. *)
Definition sample_response : dict :=
  [("transactionId", VStr "txn-123"); ("status", VStr "SUCCESS");
   ("fromAccount", VStr "ACC1000"); ("toAccount", VStr "ACC1001");
   ("amount", VFloat "100.0"); ("timestamp", VStr "2025-11-01T10:00:00Z")].

(** [from_dict] in one piece: the fields it builds when the numbers parse. *)
Lemma from_dict_ok data c r :
  fst (TransferResponse.from_dict data c) = Ok r ->
  TransferResponse.status r = get_default data "status" (VStr "UNKNOWN")
  /\ TransferResponse.timestamp r = fst (TransferResponse.timestamp_of data c)
  /\ Ok (TransferResponse.new_from_balance r)
     = TransferResponse.balance_field data "newFromAccountBalance"
  /\ Ok (TransferResponse.new_to_balance r)
     = TransferResponse.balance_field data "newToAccountBalance".
Proof.
  unfold TransferResponse.from_dict.
  destruct (TransferResponse.timestamp_of data c) as [ts c']. cbn [fst].
  destruct (Decimal_of_value _) as [a|]; [|discriminate].
  destruct (TransferResponse.balance_field data "newFromAccountBalance")
    as [nf|]; [|discriminate].
  destruct (TransferResponse.balance_field data "newToAccountBalance")
    as [nt|]; [|discriminate].
  intros [= <-]. cbn. auto.
Qed.

Lemma timestamp_of_missing data c :
  lookup "timestamp" data = None ->
  fst (TransferResponse.timestamp_of data c)
  = if truthy (get data "issuedAt") then get data "issuedAt"
    else VStr (isoformat (readings c (reads c))).
Proof.
  intro Hnone. unfold TransferResponse.timestamp_of, py_or.
  assert (E : get data "timestamp" = VNone)
    by (unfold get, get_default; now rewrite Hnone).
  rewrite E. cbn [truthy].
  destruct (truthy (get data "issuedAt")); reflexivity.
Qed.

(** C8, as the code has it: the sample response parses to amount 100.00 and
    status SUCCESS.  For every object that parses, a missing status becomes
    UNKNOWN, and a missing timestamp becomes the value under [issuedAt] when
    that is a true value, and the current time otherwise.  An object with no
    amount and no balances always parses. *)
Theorem from_dict_defaults :
  (forall c, exists r,
      fst (TransferResponse.from_dict sample_response c) = Ok r
      /\ dec_eqb (TransferResponse.amount r) (mkDecimal 10000 (-2)) = true
      /\ TransferResponse.status r = VStr "SUCCESS")
  /\ (forall data c r,
        fst (TransferResponse.from_dict data c) = Ok r ->
        (lookup "status" data = None ->
         TransferResponse.status r = VStr "UNKNOWN")
        /\ (lookup "timestamp" data = None ->
            (truthy (get data "issuedAt") = true ->
             TransferResponse.timestamp r = get data "issuedAt")
            /\ (truthy (get data "issuedAt") = false ->
                TransferResponse.timestamp r
                = VStr (isoformat (readings c (reads c))))))
  /\ (forall data c,
        lookup "amount" data = None ->
        lookup "newFromAccountBalance" data = None ->
        lookup "newToAccountBalance" data = None ->
        exists r, fst (TransferResponse.from_dict data c) = Ok r).
Proof.
  split; [|split].
  - intro c. eexists. split; [reflexivity|]. split; reflexivity.
  - intros data c r Hok.
    destruct (from_dict_ok data c r Hok) as (Hst & Hts & _).
    split.
    + intro Hnone. rewrite Hst. unfold get_default. now rewrite Hnone.
    + intro Hnone. rewrite Hts, (timestamp_of_missing data c Hnone).
      split; intro Hiss; rewrite Hiss; reflexivity.
  - intros data c Ha Hf Ht.
    unfold TransferResponse.from_dict, TransferResponse.balance_field,
      get, get_default.
    destruct (TransferResponse.timestamp_of data c) as [ts c'].
    rewrite Ha, Hf, Ht. cbn. eexists. reflexivity.
Qed.

(** A zero as JSON has it: the integer or the float. *)
Definition is_zero (v : value) : Prop := v = VInt 0 \/ v = VFloat "0.0".

(** C9: the balances are read under [newFromAccountBalance] and
    [newToAccountBalance]: what stands under [newFromBalance] and
    [newToBalance] changes nothing.  A balance is parsed when its value is
    true, so a zero gives [None], and a true value that is a number gives
    that number. *)
Theorem balances_by_truthiness :
  (forall data c v,
      TransferResponse.from_dict (("newFromBalance", v) :: data) c
      = TransferResponse.from_dict data c
      /\ TransferResponse.from_dict (("newToBalance", v) :: data) c
         = TransferResponse.from_dict data c)
  /\ (forall data c r,
        fst (TransferResponse.from_dict data c) = Ok r ->
        (forall v, lookup "newFromAccountBalance" data = Some v ->
                   (is_zero v -> TransferResponse.new_from_balance r = None)
                   /\ (truthy v = true ->
                       TransferResponse.new_from_balance r
                       = Decimal_of_value v))
        /\ (forall v, lookup "newToAccountBalance" data = Some v ->
                      (is_zero v -> TransferResponse.new_to_balance r = None)
                      /\ (truthy v = true ->
                          TransferResponse.new_to_balance r
                          = Decimal_of_value v))).
Proof.
  split.
  - intros data c v. split; reflexivity.
  - intros data c r Hok.
    destruct (from_dict_ok data c r Hok) as (_ & _ & Hf & Ht).
    unfold TransferResponse.balance_field, get, get_default in Hf, Ht.
    split; intros v Hv; [rewrite Hv in Hf | rewrite Hv in Ht].
    + split.
      * intros [-> | ->]; cbn in Hf; congruence.
      * intro Htr. rewrite Htr in Hf.
        destruct (Decimal_of_value v); congruence.
    + split.
      * intros [-> | ->]; cbn in Ht; congruence.
      * intro Htr. rewrite Htr in Ht.
        destruct (Decimal_of_value v); congruence.
Qed.

End Response.

Lemma from_dict_defaults_witness :
  exists r,
    fst (TransferResponse.from_dict
           [("issuedAt", VStr "2025-01-01T00:00:00")] steady_clock) = Ok r
    /\ TransferResponse.status r = VStr "UNKNOWN"
    /\ TransferResponse.timestamp r = VStr "2025-01-01T00:00:00".
Proof.
  destruct from_dict_defaults as (_ & Hdef & Htotal).
  destruct (Htotal [("issuedAt", VStr "2025-01-01T00:00:00")] steady_clock
              eq_refl eq_refl eq_refl) as (r & Hr).
  exists r. split; [exact Hr|].
  destruct (Hdef _ _ r Hr) as (Hst & Hts).
  split; [exact (Hst eq_refl) | exact (proj1 (Hts eq_refl) eq_refl)].
Defined.

(** C8 as stated fails: with no timestamp but an [issuedAt], the timestamp
    is not the current time. *)
Lemma issued_at_comes_before_now :
  let data := [("issuedAt", VStr "2025-01-01T00:00:00")] in
  lookup "timestamp" data = None
  /\ exists r,
       fst (TransferResponse.from_dict data steady_clock) = Ok r
       /\ TransferResponse.timestamp r = VStr "2025-01-01T00:00:00"
       /\ TransferResponse.timestamp r <> VStr (isoformat noon).
Proof.
  cbv zeta. split; [reflexivity|].
  eexists. split; [reflexivity|]. split; [reflexivity|].
  cbn. discriminate.
Qed.

Lemma balances_by_truthiness_witness :
  exists r,
    fst (TransferResponse.from_dict
           [("amount", VInt 5); ("newFromAccountBalance", VInt 0);
            ("newToAccountBalance", VFloat "105.5")] steady_clock) = Ok r
    /\ TransferResponse.new_from_balance r = None
    /\ TransferResponse.new_to_balance r = Some (mkDecimal 1055 (-1)).
Proof.
  eexists. split; [reflexivity|].
  destruct balances_by_truthiness as (_ & H).
  destruct (H [("amount", VInt 5); ("newFromAccountBalance", VInt 0);
               ("newToAccountBalance", VFloat "105.5")] steady_clock _ eq_refl)
    as (Hf & Ht).
  split.
  - exact (proj1 (Hf (VInt 0) eq_refl) (or_introl eq_refl)).
  - exact (proj2 (Ht (VFloat "105.5") eq_refl) eq_refl).
Defined.

(** ** Further properties of the transport *)

Section Budget.
Import Py PyLib BankingAPIClient.






End Budget.

Section Failures.
Import Py PyLib BankingAPIClient.

(** X2: outside the [async with] block no request is made: the call raises
    the [RuntimeError] and leaves the client and the world as they are,
    whatever the retry count.  [validate_account] of the client lets this
    error through, it being no [BankingAPIError]; the service turns it into
    [False]. *)
Theorem outside_session_nothing_is_sent
    method endpoint json_data params retry_count account_number st :
  session (client st) = None ->
  _make_request method endpoint json_data params retry_count st
  = (Raise not_initialized, st)
  /\ validate_account account_number st = (Raise not_initialized, st)
  /\ TransferService.validate_account account_number st
     = (Ok (VBool false), st).
Proof.
  intro Hs.
  assert (Hreq : forall m e j p rc,
            _make_request m e j p rc st = (Raise not_initialized, st))
    by (intros; now rewrite _make_request_eq, Hs).
  assert (Hv : validate_account account_number st
               = (Raise not_initialized, st)).
  { unfold validate_account, try_except, bind, request. now rewrite Hreq. }
  repeat split; auto.
  unfold TransferService.validate_account, try_except. now rewrite Hv.
Qed.

(** X3: only timeouts and connection errors are retried: any other
    exception out of the round trip is raised again at once, after the one
    request and without a sleep, however many retries are left. *)
Theorem other_failures_are_not_retried
    method endpoint json_data params retry_count st s e :
  session (client st) = Some s ->
  Http.closed s = false ->
  (forall req, next_outcome st req = Http.Fails e) ->
  transient (Http.Fails e) = false ->
  let st' := snd (_make_request method endpoint json_data params
                                retry_count st) in
  fst (_make_request method endpoint json_data params retry_count st)
  = Raise e
  /\ sent (world st')
     = (sent (world st)
        ++ [request_of method endpoint json_data params st])%list
  /\ slept (world st') = slept (world st).
Proof.
  intros Hs Hopen Hfail Hnt. cbv zeta.
  rewrite _make_request_eq, Hs.
  destruct (attempt_open s method endpoint json_data params st Hopen)
    as (Hfst & _ & _ & Hsent & Hsl).
  rewrite Hfail in Hfst. cbn in Hfst.
  destruct (attempt s method endpoint json_data params st) as [res st1].
  cbn [fst snd] in *. subst res.
  destruct e; try discriminate; cbn; auto.
Qed.

(** X4: when the retries run out, the message of the [ConnectionError]
    tells the last failure only: after a timeout it names the timeout, the
    method and the URL; after a connection error it quotes that error and
    names the base URL. *)
Theorem last_failure_makes_the_message
    method endpoint json_data params retry_count st s :
  session (client st) = Some s ->
  Http.closed s = false ->
  Config.max_retries (config (client st)) <= Z.of_nat retry_count ->
  let cfg := config (client st) in
  let out := _make_request method endpoint json_data params retry_count st in
  ((forall req, next_outcome st req = Http.Fails TimeoutError) ->
   fst out
   = Raise (ConnectionError
              ("Request timeout after " ++ str_int (Config.timeout cfg)
               ++ "s: " ++ method ++ " " ++ Config.base_url cfg ++ endpoint)))
  /\ (forall detail,
        (forall req, next_outcome st req
                     = Http.Fails (ClientConnectionError detail)) ->
        fst out
        = Raise (ConnectionError
                   ("Connection failed: " ++ detail ++ newline
                    ++ "Please ensure the banking server is running at "
                    ++ Config.base_url cfg))).
Proof.
  intros Hs Hopen Hmax. cbv zeta.
  rewrite _make_request_eq, Hs.
  destruct (attempt_open s method endpoint json_data params st Hopen)
    as (Hfst & Hc & _).
  destruct (attempt s method endpoint json_data params st) as [res st1].
  cbn [fst snd] in *. subst res.
  split; [intros Hfail | intros detail Hfail]; rewrite Hfail; cbn;
    rewrite Hc;
    destruct (Z.ltb_spec (Z.of_nat retry_count)
                (Config.max_retries (config (client st)))); try lia; cbn.
  - reflexivity.
  - reflexivity.
Qed.

End Failures.

Definition broken_pipe (_ : nat) (_ : Http.Request) : Http.outcome :=
  Http.Fails (OtherError "ClientPayloadError").

Lemma other_failures_are_not_retried_witness :
  let st := fresh Config.default broken_pipe in
  fst (_make_request "GET" "/accounts" None None 0 st)
  = Raise (OtherError "ClientPayloadError")
  /\ length (sent (world (snd (_make_request "GET" "/accounts" None None 0 st))))
     = 1%nat
  /\ slept (world (snd (_make_request "GET" "/accounts" None None 0 st))) = [].
Proof.
  intro st.
  destruct (other_failures_are_not_retried "GET" "/accounts" None None 0 st
              (Http.mkSession false) (OtherError "ClientPayloadError")
              eq_refl eq_refl (fun _ => eq_refl) eq_refl) as (H1 & H2 & H3).
  rewrite H1, H2, H3. repeat split.
Defined.

Lemma outside_session_nothing_is_sent_witness :
  let st := mkState (BankingAPIClient.__init__ Config.default)
                    (mkWorld (always not_found) [] [] steady_clock) in
  validate_account "ACC1000" st = (Raise not_initialized, st)
  /\ TransferService.validate_account "ACC1000" st = (Ok (VBool false), st).
Proof.
  intro st.
  exact (proj2 (outside_session_nothing_is_sent "GET" "/" None None 0
                  "ACC1000" st eq_refl)).
Defined.

Definition timing_out (_ : nat) (_ : Http.Request) : Http.outcome :=
  Http.Fails TimeoutError.

Lemma last_failure_makes_the_message_witness :
  fst (_make_request "GET" "/accounts" None None 3
         (fresh Config.default timing_out))
  = Raise (ConnectionError
             "Request timeout after 30s: GET http://localhost:8123/accounts").
Proof.
  destruct (last_failure_makes_the_message "GET" "/accounts" None None 3
              (fresh Config.default timing_out) (Http.mkSession false)
              eq_refl eq_refl) as [H _]; [cbn; lia|].
  exact (H (fun _ => eq_refl)).
Defined.

(** ** The methods of the client *)

Section Methods.
Import Py PyLib BankingAPIClient.

(** A computation that leaves the fields of the client as they were. *)
Definition keeps_client {A} (m : M A) : Prop :=
  forall st, client (snd (m st)) = client st.

Lemma keeps_ret {A} (a : A) : keeps_client (ret a).
Proof. intro st. reflexivity. Qed.

Lemma keeps_raise {A} e : keeps_client (@raise A e).
Proof. intro st. reflexivity. Qed.

Lemma keeps_lift {A} (r : result A) : keeps_client (lift r).
Proof. intro st. reflexivity. Qed.

Lemma keeps_bind {A B} (m : M A) (k : A -> M B) :
  keeps_client m -> (forall a, keeps_client (k a)) -> keeps_client (bind m k).
Proof.
  intros Hm Hk st. unfold bind. specialize (Hm st).
  destruct (m st) as [[a|e] st1]; cbn in *; [|exact Hm].
  now rewrite Hk.
Qed.

Lemma keeps_try {A} (m : M A) catches handler :
  keeps_client m -> (forall e, keeps_client (handler e)) ->
  keeps_client (try_except m catches handler).
Proof.
  intros Hm Hh st. unfold try_except. specialize (Hm st).
  destruct (m st) as [[a|e] st1]; cbn in *; [exact Hm|].
  destruct (catches e); [now rewrite Hh | exact Hm].
Qed.

Lemma keeps_request method endpoint json_data params :
  keeps_client (request method endpoint json_data params).
Proof. intro st. apply request_frame. Qed.

Create HintDb keeps.

#[local] Hint Resolve keeps_ret keeps_raise keeps_lift keeps_bind keeps_try
  keeps_request : keeps.

(** X5: the token, the session and the configuration of the client are the
    same after as before every method that only talks to the server,
    whatever the server answers and whether the method returns or raises:
    [get_auth_token] does not store the token it fetched, and only
    [set_auth_token], the context manager and [validate_token] write to the
    client. *)
Theorem requests_keep_the_client :
  (forall username password claim,
      keeps_client (get_auth_token username password claim))
  /\ (forall account_number, keeps_client (validate_account account_number))
  /\ (forall account_number,
        keeps_client (get_account_balance account_number))
  /\ keeps_client list_accounts
  /\ (forall transfer_data, keeps_client (transfer transfer_data))
  /\ (forall account_number limit,
        keeps_client (get_transaction_history account_number limit)).
Proof.
  repeat split; intros.
  - unfold get_auth_token. apply keeps_bind; auto with keeps. intro response.
    apply keeps_bind; auto with keeps. intro token.
    destruct (negb (truthy token)); auto with keeps.
  - unfold validate_account. auto 10 with keeps.
  - unfold get_account_balance. auto 10 with keeps.
  - unfold list_accounts. apply keeps_bind; auto with keeps.
    intros [| | | | |l|d]; auto with keeps.
    destruct (lookup "accounts" d); auto with keeps.
  - unfold transfer. auto with keeps.
  - unfold get_transaction_history. auto 10 with keeps.
Qed.

Lemma lex_ltb_irrefl l : lex_ltb l l = false.
Proof.
  induction l as [|x l IH]; [reflexivity|].
  cbn. now rewrite Z.ltb_irrefl, Z.eqb_refl, IH.
Qed.

(** X6: a token with an expiry time is sent only while the clock reads a
    time before it: the one request of a call that the server answers
    carries [Authorization: <type> <token>] when now is earlier than
    [expires_at], and no header at all from the instant of expiry on; the
    call is made all the same. *)
Theorem expired_token_is_not_sent
    method endpoint json_data params st s tok expiry r :
  session (client st) = Some s ->
  Http.closed s = false ->
  auth_token (client st) = Some tok ->
  AuthToken.expires_at tok = Some expiry ->
  (forall req, next_outcome st req = Http.Responds r) ->
  let now := readings (clock (world st)) (reads (clock (world st))) in
  exists req,
    sent (world (snd (request method endpoint json_data params st)))
    = (sent (world st) ++ [req])%list
    /\ Http.headers req
       = (if datetime_geb now expiry then []
          else [("Authorization", AuthToken.get_header_value tok)])
    /\ (now = expiry -> Http.headers req = []).
Proof.
  intros Hs Hopen Ht He Hr now.
  destruct (_make_request_responds method endpoint json_data params 0 st s r
              Hs Hopen Hr) as (_ & _ & _ & Hsent & _).
  exists (request_of method endpoint json_data params st).
  split; [exact Hsent|].
  assert (Hh : Http.headers (request_of method endpoint json_data params st)
               = if datetime_geb now expiry then []
                 else [("Authorization", AuthToken.get_header_value tok)]).
  { unfold request_of, auth_headers, with_clock, AuthToken.is_expired,
      datetime_now. cbn [Http.headers]. rewrite Ht, He. subst now.
    destruct (datetime_geb _ expiry); reflexivity. }
  split; [exact Hh|]. intro Heq. rewrite Hh, Heq.
  unfold datetime_geb. now rewrite lex_ltb_irrefl.
Qed.

(** X7: [authenticate] returns a token exactly when the request for it
    returns an object whose [token] is true, and then it is that token;
    an empty or missing token and every error give [None]. *)
Theorem authenticate_succeeds_iff username password st t :
  fst (TransferService.authenticate username password st) = Ok (Some t)
  <-> exists d st',
        request "POST" "/authToken"
          (Some (VDict [("username", VStr username);
                        ("password", VStr password)]))
          (Some [("claim", VStr "transfer")]) st = (Ok (VDict d), st')
        /\ get_default d "token" VNone = t
        /\ truthy t = true.
Proof.
  unfold TransferService.authenticate, get_auth_token, set_auth_token,
    set_self_auth_token, try_except, bind, lift, ret, raise.
  destruct (request _ _ _ _ st) as [[response|e] st1]; cbn.
  - destruct response as [| | | | | |d]; cbn;
      try (split; [discriminate | intros (d' & st' & H & _); discriminate]).
    destruct (truthy (get_default d "token" VNone)) eqn:Htr; cbn.
    + split.
      * intro H. injection H as <-. now exists d, st1.
      * intros (d' & st' & H & <- & _). now injection H as <- _.
    + split; [discriminate|].
      intros (d' & st' & H & <- & Ht). injection H as <- _. congruence.
  - split; [discriminate | intros (d' & st' & H & _); discriminate].
Qed.

(** X8: [validate_account] of the client turns a [BankingAPIError] of the
    request into [False] and raises every other error again; the one of
    the service returns [False] for both. *)
Theorem validate_account_swallows account_number st e st' :
  request "GET" ("/accounts/validate/" ++ account_number) None None st
  = (Raise e, st') ->
  validate_account account_number st
  = (if is_BankingAPIError e then Ok (VBool false) else Raise e, st')
  /\ TransferService.validate_account account_number st
     = (Ok (VBool false), st').
Proof.
  intro H.
  assert (Hv : validate_account account_number st
               = (if is_BankingAPIError e then Ok (VBool false) else Raise e,
                  st')).
  { unfold validate_account, try_except, bind. rewrite H.
    destruct (is_BankingAPIError e); reflexivity. }
  split; [exact Hv|].
  unfold TransferService.validate_account, try_except. rewrite Hv.
  destruct (is_BankingAPIError e); reflexivity.
Qed.

(** X9: the two validations of the service never raise, in any state and
    for any server: they return a value. *)
Theorem service_validations_never_raise st :
  (forall account_number, exists v,
      fst (TransferService.validate_account account_number st) = Ok v)
  /\ (forall token, exists v,
        fst (TransferService.validate_token token st) = Ok v).
Proof.
  split; intro x.
  - unfold TransferService.validate_account, try_except.
    destruct (validate_account x st) as [[v|e] st1]; cbn; eauto.
  - unfold TransferService.validate_token, try_except.
    destruct (validate_token x st) as [[v|e] st1]; cbn; eauto.
Qed.

(** X10: when the server answers the check with an object and a status
    below 400, [validate_token] has sent one [POST] to [/auth/validate]
    that carries the token under test as [Bearer], not the token of the
    session; it returns the [valid] field of the answer, [False] when
    there is none, and the client is as before the call. *)
Theorem validate_token_sends_the_given_token token st s r d :
  session (client st) = Some s ->
  Http.closed s = false ->
  (forall req, next_outcome st req = Http.Responds r) ->
  handle_response r = Ok (VDict d) ->
  let out := validate_token token st in
  fst out = Ok (get_default d "valid" (VBool false))
  /\ client (snd out) = client st
  /\ sent (world (snd out))
     = (sent (world st)
        ++ [Http.mkRequest "POST"
              (Config.base_url (config (client st)) ++ "/auth/validate")%string
              None None
              [("Authorization", ("Bearer " ++ py_str token)%string)]])%list.
Proof.
  intros Hs Hopen Hr Hd. cbv zeta.
  set (st0 := mkState (mkClient (config (client st)) (session (client st))
                         (Some (AuthToken.of_token token))) (world st)).
  destruct (_make_request_responds "POST" "/auth/validate" None None 0 st0 s r
              Hs Hopen Hr) as (Hfst & Hc & _ & Hsent & _).
  unfold validate_token, try_except, bind, get_self, set_self_auth_token,
    request, lift, ret.
  cbn [fst snd]. fold st0.
  destruct (_make_request "POST" "/auth/validate" None None 0 st0)
    as [res st1].
  cbn [fst snd] in *. rewrite Hfst, Hd. cbn.
  rewrite Hc, Hsent. cbn. destruct (client st); repeat split.
Qed.

End Methods.

Definition tomorrow : datetime := mkDatetime 2025 11 5 12 0 0 0.

Definition ok_empty : Http.Response := json_response 200 "{}" (VDict []).

Lemma expired_token_is_not_sent_witness :
  let st expiry :=
    mkState (mkClient Config.default (Some (Http.mkSession false))
               (Some (AuthToken.mk (VStr "abc") (Some expiry) "Bearer")))
            (mkWorld (always ok_empty) [] [] steady_clock) in
  (exists req,
      sent (world (snd (request "GET" "/accounts" None None (st noon))))
      = [req] /\ Http.headers req = [])
  /\ (exists req,
        sent (world (snd (request "GET" "/accounts" None None (st tomorrow))))
        = [req] /\ Http.headers req = [("Authorization", "Bearer abc")]).
Proof.
  intro st. split.
  - destruct (expired_token_is_not_sent "GET" "/accounts" None None (st noon)
                (Http.mkSession false) _ noon ok_empty
                eq_refl eq_refl eq_refl eq_refl (fun _ => eq_refl))
      as (req & H1 & H2 & _).
    exists req. split; [exact H1 | exact H2].
  - destruct (expired_token_is_not_sent "GET" "/accounts" None None
                (st tomorrow) (Http.mkSession false) _ tomorrow ok_empty
                eq_refl eq_refl eq_refl eq_refl (fun _ => eq_refl))
      as (req & H1 & H2 & _).
    exists req. split; [exact H1 | exact H2].
Defined.

Lemma validate_account_swallows_witness :
  let st := mkState (BankingAPIClient.__init__ Config.default)
                    (mkWorld (always ok_empty) [] [] steady_clock) in
  validate_account "ACC1000" st = (Raise not_initialized, st)
  /\ TransferService.validate_account "ACC1000" st = (Ok (VBool false), st).
Proof.
  intro st.
  exact (validate_account_swallows "ACC1000" st not_initialized st eq_refl).
Defined.

Definition token_is_valid : Http.Response :=
  json_response 200 "{}" (VDict [("valid", VBool true)]).

Lemma validate_token_sends_the_given_token_witness :
  let st :=
    mkState (mkClient Config.default (Some (Http.mkSession false))
               (Some (AuthToken.of_token (VStr "session-token"))))
            (mkWorld (always token_is_valid) [] [] steady_clock) in
  fst (validate_token (VStr "probe") st) = Ok (VBool true)
  /\ client (snd (validate_token (VStr "probe") st)) = client st
  /\ sent (world (snd (validate_token (VStr "probe") st)))
     = [Http.mkRequest "POST" "http://localhost:8123/auth/validate" None None
          [("Authorization", "Bearer probe")]].
Proof.
  intro st.
  exact (validate_token_sends_the_given_token (VStr "probe") st
           (Http.mkSession false) token_is_valid [("valid", VBool true)]
           eq_refl eq_refl (fun _ => eq_refl) eq_refl).
Defined.

(** ** What the methods make of an answer *)

Section Answers.
Import Py PyLib BankingAPIClient.

(** X11: when the answer to [list_accounts] is an object with an
    [accounts] key, its value is returned as it is, list or not, as long as
    it has a length; a value without one ([null], a number, a boolean)
    makes the method raise [TypeError], from the [len] of the log line.  An
    answer that is neither an object nor a list gives the empty list. *)
Theorem list_accounts_returns_the_accounts response st st' :
  request "GET" "/accounts" None None st = (Ok response, st') ->
  (forall d accounts,
      response = VDict d -> lookup "accounts" d = Some accounts ->
      list_accounts st
      = (match accounts with
         | VStr _ | VList _ | VDict _ => Ok accounts
         | _ => Raise TypeError
         end, st'))
  /\ ((forall d, response <> VDict d) -> (forall l, response <> VList l) ->
      list_accounts st = (Ok (VList []), st')).
Proof.
  intro H. unfold list_accounts, bind. rewrite H. split.
  - intros d accounts -> Hl. rewrite Hl.
    destruct accounts; reflexivity.
  - intros Hd Hl. destruct response; try reflexivity.
    + now destruct (Hl l).
    + now destruct (Hd d).
Qed.

(** X12: [get_account_balance] returns the answer itself when it is an
    object, with or without a balance in it; any other answer raises
    [AttributeError], from the [get] of the log line.  [get_balance] of the
    service does the same. *)
Theorem get_account_balance_returns_objects account_number response st st' :
  request "GET" ("/accounts/balance/" ++ account_number) None None st
  = (Ok response, st') ->
  let expected := match response with
                  | VDict _ => Ok response
                  | _ => Raise AttributeError
                  end in
  get_account_balance account_number st = (expected, st')
  /\ TransferService.get_balance account_number st = (expected, st').
Proof.
  intro H. cbv zeta.
  assert (Hc : get_account_balance account_number st
               = (match response with
                  | VDict _ => Ok response
                  | _ => Raise AttributeError
                  end, st')).
  { unfold get_account_balance, bind. rewrite H.
    destruct response; reflexivity. }
  split; [exact Hc|].
  unfold TransferService.get_balance, try_except. rewrite Hc.
  destruct response; reflexivity.
Qed.

(** The query of a history request, written out. *)
Definition history_query (account_number : option string) (limit : Z)
  : dict :=
  ("limit", VInt limit)
  :: match account_number with
     | Some (String c a) => [("accountNumber", VStr (String c a))]
     | _ => []
     end.

(** X13: [get_transaction_history] sends one [GET] to
    [/transactions/history] without a body; the query holds the limit, and
    the account number when one is given that is not the empty string (a
    blank one is sent).  When the answer is an object the method returns
    its [transactions], and the empty list when it has none. *)
Theorem history_request_and_default account_number limit st s r d :
  session (client st) = Some s ->
  Http.closed s = false ->
  (forall req, next_outcome st req = Http.Responds r) ->
  handle_response r = Ok (VDict d) ->
  let out := get_transaction_history account_number limit st in
  fst out = Ok (get_default d "transactions" (VList []))
  /\ exists req,
       sent (world (snd out)) = (sent (world st) ++ [req])%list
       /\ Http.method req = "GET"
       /\ Http.url req
          = Config.base_url (config (client st)) ++ "/transactions/history"
       /\ Http.json req = None
       /\ Http.params req = Some (history_query account_number limit).
Proof.
  intros Hs Hopen Hr Hd. cbv zeta.
  destruct (_make_request_responds "GET" "/transactions/history" None
              (Some (history_params account_number limit)) 0 st s r
              Hs Hopen Hr) as (Hfst & _ & _ & Hsent & _).
  unfold get_transaction_history, bind, request, lift.
  destruct (_make_request _ _ _ _ 0 st) as [res st1].
  cbn [fst snd] in *. rewrite Hfst, Hd. cbn [value_get fst snd].
  split; [reflexivity|]. eexists. split; [exact Hsent|].
  cbn. repeat split.
  destruct account_number as [[|c a]|]; reflexivity.
Qed.

(** X14: the three service methods that log and raise again add nothing to
    the client methods they wrap: same value or same exception, same
    state. *)
Theorem service_wrappers_are_transparent st :
  (forall account_number,
      TransferService.get_balance account_number st
      = get_account_balance account_number st)
  /\ TransferService.list_accounts st = list_accounts st
  /\ (forall account_number limit,
        TransferService.get_transaction_history account_number limit st
        = get_transaction_history account_number limit st).
Proof.
  repeat split; intros.
  - unfold TransferService.get_balance, try_except.
    now destruct (get_account_balance _ st) as [[v|e] st1].
  - unfold TransferService.list_accounts, try_except.
    now destruct (list_accounts st) as [[v|e] st1].
  - unfold TransferService.get_transaction_history, try_except.
    now destruct (get_transaction_history _ _ st) as [[v|e] st1].
Qed.

End Answers.

Definition null_accounts : Http.Response :=
  json_response 200 "{}" (VDict [("accounts", VNone)]).

Lemma list_accounts_returns_the_accounts_witness :
  fst (list_accounts (fresh Config.default (always null_accounts)))
  = Raise TypeError.
Proof.
  pose (st := fresh Config.default (always null_accounts)).
  destruct (list_accounts_returns_the_accounts
              (VDict [("accounts", VNone)]) st
              (snd (request "GET" "/accounts" None None st)) eq_refl)
    as [H _].
  exact (f_equal fst (H _ VNone eq_refl eq_refl)).
Defined.

Definition bare_list : Http.Response :=
  json_response 200 "[]" (VList []).

Lemma get_account_balance_returns_objects_witness :
  fst (get_account_balance "ACC1000"
         (fresh Config.default (always bare_list)))
  = Raise AttributeError
  /\ fst (TransferService.get_balance "ACC1000"
            (fresh Config.default (always bare_list)))
     = Raise AttributeError.
Proof.
  pose (st := fresh Config.default (always bare_list)).
  destruct (get_account_balance_returns_objects "ACC1000" (VList []) st
              (snd (request "GET" "/accounts/balance/ACC1000" None None st))
              eq_refl) as [H1 H2].
  split; [exact (f_equal fst H1) | exact (f_equal fst H2)].
Defined.

Lemma history_request_and_default_witness :
  fst (get_transaction_history (Some " ") 5
         (fresh Config.default (always ok_empty)))
  = Ok (VList [])
  /\ exists req,
       sent (world (snd (get_transaction_history (Some " ") 5
                           (fresh Config.default (always ok_empty)))))
       = [req]
       /\ Http.params req
          = Some [("limit", VInt 5); ("accountNumber", VStr " ")].
Proof.
  destruct (history_request_and_default (Some " ") 5
              (fresh Config.default (always ok_empty))
              (Http.mkSession false) ok_empty []
              eq_refl eq_refl (fun _ => eq_refl) eq_refl)
    as (H1 & req & H2 & _ & _ & _ & H3).
  split; [exact H1|]. exists req. split; [exact H2 | exact H3].
Defined.

(** ** The other models of models.py *)

Module Account.
Import Py PyLib.

Record t : Type := mk {
  account_number : string;
  balance : option Decimal;
  status : option string
}.

Definition __post_init__ (self : t) : result unit :=
  if str_falsy (account_number self)
     || str_falsy (strip (account_number self))
  then Raise (ValueError "Account number cannot be empty")
  else Ok tt.

(** [Account(account_number, balance, status)] *)
Definition new (account_number : string) (balance : option Decimal)
    (status : option string) : result t :=
  let self := mk account_number balance status in
  match __post_init__ self with
  | Ok _ => Ok self
  | Raise e => Raise e
  end.

End Account.

Module AccountBalance.
Import Py PyLib.

Record t : Type := mk {
  account_number : value;
  balance : Decimal;
  currency : value;
  last_updated : datetime
}.

(** [AccountBalance.from_dict(data)]: the arguments are evaluated first,
    and the generated [__init__] then calls [datetime.now] for
    [last_updated]. *)
Definition from_dict (data : dict) (c : Clock) : result t * Clock :=
  let account_number := get_default data "accountNumber" (VStr "") in
  match Decimal_of_value (get_default data "balance" (VInt 0)) with
  | None => (Raise InvalidOperation, c)
  | Some balance =>
      let currency := get_default data "currency" (VStr "USD") in
      let (now, c') := datetime_now c in
      (Ok (mk account_number balance currency now), c')
  end.

End AccountBalance.

Section Records.
Import Py PyLib BankingAPIClient.

(** Whether every character of a string is white space. *)
Fixpoint all_space (s : string) : bool :=
  match s with
  | EmptyString => true
  | String c s' => isspace c && all_space s'
  end.

Lemma rstrip_head c s : isspace c = false -> rstrip (String c s) <> "".
Proof.
  intros Hc. cbn. destruct (rstrip s); [rewrite Hc|]; discriminate.
Qed.

Lemma strip_blank s : strip s = "" <-> all_space s = true.
Proof.
  unfold strip. induction s as [|c s IH]; cbn [lstrip all_space].
  - split; reflexivity.
  - destruct (isspace c) eqn:Hc; cbn [andb]; [exact IH|].
    split; [|discriminate]. intro H. now destruct (rstrip_head c s Hc).
Qed.

(** X15: an [Account] is built from every account number that has a
    character other than white space, with the fields as given, and from
    no other: the empty and the blank number raise the [ValueError].  The
    two accounts of a [TransferRequest] that was built pass this check. *)
Theorem account_number_not_blank account_number balance status :
  Account.new account_number balance status
  = (if all_space account_number
     then Raise (ValueError "Account number cannot be empty")
     else Ok (Account.mk account_number balance status))
  /\ (forall to_account amount r,
        TransferRequest.new account_number to_account amount = Ok r ->
        Account.new account_number balance status
        = Ok (Account.mk account_number balance status)
        /\ Account.new to_account balance status
           = Ok (Account.mk to_account balance status)).
Proof.
  assert (Hnew : forall a,
            Account.new a balance status
            = if all_space a
              then Raise (ValueError "Account number cannot be empty")
              else Ok (Account.mk a balance status)).
  { intro a. unfold Account.new, Account.__post_init__.
    cbn [Account.account_number].
    pose proof (blank_test a) as Hb. pose proof (strip_blank a) as Hs.
    destruct (str_falsy a || str_falsy (strip a));
      destruct (all_space a); try reflexivity.
    - assert (false = true) by (apply Hs, Hb; reflexivity). discriminate.
    - assert (false = true) by (apply Hb, Hs; reflexivity). discriminate. }
  split; [apply Hnew|].
  intros to_account amount r. rewrite !Hnew.
  unfold TransferRequest.new, TransferRequest.__post_init__.
  cbn [TransferRequest.from_account TransferRequest.to_account
       TransferRequest.amount].
  pose proof (blank_test account_number) as Hb1.
  pose proof (strip_blank account_number) as Hs1.
  pose proof (blank_test to_account) as Hb2.
  pose proof (strip_blank to_account) as Hs2.
  destruct (str_falsy account_number || str_falsy (strip account_number));
    [discriminate|].
  destruct (str_falsy to_account || str_falsy (strip to_account));
    [discriminate|].
  intros _.
  destruct (all_space account_number);
    [assert (false = true) by (apply Hb1, Hs1; reflexivity); discriminate|].
  destruct (all_space to_account);
    [assert (false = true) by (apply Hb2, Hs2; reflexivity); discriminate|].
  split; reflexivity.
Qed.

(** X16: [AccountBalance.from_dict] keeps a balance of zero as the number
    zero and takes a missing balance for zero, where the balances of a
    transfer response become [None]; the account number and the currency
    default to the empty string and [USD]; the time of the update is one
    reading of the clock.  A [null] balance raises [InvalidOperation]
    before the clock is read. *)
Theorem account_balance_from_dict data c :
  (lookup "balance" data = None \/ lookup "balance" data = Some (VInt 0) ->
   AccountBalance.from_dict data c
   = (Ok (AccountBalance.mk
            (match lookup "accountNumber" data with
             | Some v => v | None => VStr "" end)
            (mkDecimal 0 0)
            (match lookup "currency" data with
             | Some v => v | None => VStr "USD" end)
            (readings c (reads c))),
      mkClock (readings c) (S (reads c))))
  /\ (lookup "balance" data = Some VNone ->
      AccountBalance.from_dict data c = (Raise InvalidOperation, c)).
Proof.
  unfold AccountBalance.from_dict, get_default, datetime_now.
  split.
  - intros [H|H]; rewrite H; reflexivity.
  - intros H. rewrite H. reflexivity.
Qed.

(** X17: [TransferResponse.from_dict] reads the clock once when neither
    [timestamp] nor [issuedAt] holds a true value, and not at all
    otherwise; a true [timestamp] wins over [issuedAt], and an empty one
    counts as missing. *)
Theorem from_dict_reads_the_clock data c :
  (truthy (get data "timestamp") = true ->
   snd (TransferResponse.from_dict data c) = c
   /\ forall r, fst (TransferResponse.from_dict data c) = Ok r ->
                TransferResponse.timestamp r = get data "timestamp")
  /\ (truthy (get data "timestamp") = false ->
      truthy (get data "issuedAt") = true ->
      snd (TransferResponse.from_dict data c) = c
      /\ forall r, fst (TransferResponse.from_dict data c) = Ok r ->
                   TransferResponse.timestamp r = get data "issuedAt")
  /\ (truthy (get data "timestamp") = false ->
      truthy (get data "issuedAt") = false ->
      snd (TransferResponse.from_dict data c)
      = mkClock (readings c) (S (reads c))).
Proof.
  assert (Hsnd : snd (TransferResponse.from_dict data c)
                 = snd (TransferResponse.timestamp_of data c)).
  { unfold TransferResponse.from_dict.
    now destruct (TransferResponse.timestamp_of data c). }
  assert (Hts : forall r, fst (TransferResponse.from_dict data c) = Ok r ->
                TransferResponse.timestamp r
                = fst (TransferResponse.timestamp_of data c))
    by (intros r Hr; apply (from_dict_ok data c r Hr)).
  rewrite Hsnd.
  unfold TransferResponse.timestamp_of, py_or, datetime_now in *.
  split; [|split].
  - intro H. rewrite H; cbv iota; rewrite H. split; [reflexivity|].
    intros r Hr. rewrite (Hts r Hr), H; cbv iota; rewrite H. reflexivity.
  - intros H H0. rewrite H; cbv iota; rewrite H0. split; [reflexivity|].
    intros r Hr. rewrite (Hts r Hr), H; cbv iota; rewrite H0. reflexivity.
  - intros H H0. rewrite H; cbv iota; rewrite H0. reflexivity.
Qed.

(** X18: an amount that is missing parses as zero, but one that is there
    and is [null], a boolean or the empty string makes
    [TransferResponse.from_dict] raise [InvalidOperation], whatever the
    other fields hold. *)
Theorem from_dict_amount data c :
  (lookup "amount" data = None ->
   forall r, fst (TransferResponse.from_dict data c) = Ok r ->
             TransferResponse.amount r = mkDecimal 0 0)
  /\ (forall v, lookup "amount" data = Some v ->
                v = VNone \/ (exists b, v = VBool b) \/ v = VStr "" ->
                fst (TransferResponse.from_dict data c)
                = Raise InvalidOperation).
Proof.
  unfold TransferResponse.from_dict, get_default.
  destruct (TransferResponse.timestamp_of data c) as [ts c']. cbn [fst].
  split.
  - intros H r. rewrite H.
    change (Decimal_of_value (VInt 0)) with (Some (mkDecimal 0 0)).
    destruct (TransferResponse.balance_field data "newFromAccountBalance");
      [|discriminate].
    destruct (TransferResponse.balance_field data "newToAccountBalance");
      [|discriminate].
    intro Hr. injection Hr as <-. reflexivity.
  - intros v H [->|[[[|] ->]| ->]]; rewrite H; reflexivity.
Qed.

End Records.

(** ** The life of a session *)

Section Lifecycle.
Import Py PyLib BankingAPIClient.

(** X19: leaving the [async with] block closes the session and keeps it
    on the client, so a request made afterwards passes the test for a
    session and fails in the transport: it raises [RuntimeError], sends
    nothing and is not retried.  Entering and leaving touch neither the
    token nor the configuration, and leaving a client that was never
    entered does nothing. *)
Theorem closed_session_refuses
    method endpoint json_data params retry_count st :
  (let st1 := snd (__aexit__ (snd (__aenter__ st))) in
   let out := _make_request method endpoint json_data params retry_count
                            st1 in
   fst out = Raise (RuntimeError "Session is closed")
   /\ sent (world (snd out)) = sent (world st)
   /\ slept (world (snd out)) = slept (world st)
   /\ auth_token (client (snd out)) = auth_token (client st)
   /\ config (client (snd out)) = config (client st))
  /\ (session (client st) = None -> __aexit__ st = (Ok tt, st)).
Proof.
  split.
  - cbv zeta.
    set (st1 := snd (__aexit__ (snd (__aenter__ st)))).
    assert (Hs : session (client st1) = Some (Http.mkSession true))
      by reflexivity.
    rewrite _make_request_eq, Hs.
    pose proof (attempt_client (Http.mkSession true) method endpoint
                  json_data params st1) as Hc.
    unfold attempt, session_request in *. cbn [Http.closed] in *.
    pose proof (auth_headers_world st1) as (_ & Hn & Hz).
    destruct (auth_headers st1) as [headers st2]. cbn [fst snd] in *.
    rewrite Hn, Hz, Hc. repeat split.
  - intro H. unfold __aexit__, bind, get_self. cbn. now rewrite H.
Qed.

End Lifecycle.

(** ** The transfer of the service *)

(** [TransferRequest.to_dict] and [TransferService.transfer].  What
    [float(self.amount)] prints as is the interpreter's business: the
    [repr] of that float is a parameter.  The one amount [float] refuses is
    a signaling NaN, and a request that was built holds no NaN
    ([built_amount_compares]). *)
Module Transfer.
Section Float.
Import Py PyLib.

Variable float_repr : DecimalValue -> string.

(** [request.to_dict()] *)
Definition to_dict (self : TransferRequest.t) : value :=
  VDict [("fromAccount", VStr (TransferRequest.from_account self));
         ("toAccount", VStr (TransferRequest.to_account self));
         ("amount", VFloat (float_repr (TransferRequest.amount self)))].

(** [TransferResponse.from_dict(response_data)] on what the client
    returned: only an object has the [get] the method starts with. *)
Definition parse (response_data : value) : M TransferResponse.t :=
  match response_data with
  | VDict d => with_clock (TransferResponse.from_dict d)
  | _ => raise AttributeError
  end.

(** [TransferService.transfer(request)] *)
Definition transfer (request : TransferRequest.t) : M TransferResponse.t :=
  response_data <- BankingAPIClient.transfer (to_dict request) ;;
  parse response_data.

End Float.
End Transfer.

Section Transfers.
Import Py PyLib BankingAPIClient.

Variable float_repr : DecimalValue -> string.

(** X20: a transfer is one [POST] to [/transfer] whose body holds the two
    accounts and the amount as a float, without a query; when the server
    answers with an object and a status below 400 the result is that
    object parsed by [TransferResponse.from_dict], and the client is as
    before. *)
Theorem transfer_posts_and_parses request st s r d :
  session (client st) = Some s ->
  Http.closed s = false ->
  (forall req, next_outcome st req = Http.Responds r) ->
  handle_response r = Ok (VDict d) ->
  let out := Transfer.transfer float_repr request st in
  let st1 := snd (BankingAPIClient.transfer
                    (Transfer.to_dict float_repr request) st) in
  fst out = fst (TransferResponse.from_dict d (clock (world st1)))
  /\ client (snd out) = client st
  /\ exists req,
       sent (world (snd out)) = (sent (world st) ++ [req])%list
       /\ Http.method req = "POST"
       /\ Http.url req = Config.base_url (config (client st)) ++ "/transfer"
       /\ Http.params req = None
       /\ Http.json req
          = Some (VDict
                    [("fromAccount",
                      VStr (TransferRequest.from_account request));
                     ("toAccount", VStr (TransferRequest.to_account request));
                     ("amount",
                      VFloat (float_repr (TransferRequest.amount request)))]).
Proof.
  intros Hs Hopen Hr Hd. cbv zeta.
  destruct (_make_request_responds "POST" "/transfer"
              (Some (Transfer.to_dict float_repr request)) None 0 st s r
              Hs Hopen Hr) as (Hfst & Hc & _ & Hsent & _).
  unfold Transfer.transfer, BankingAPIClient.transfer, bind,
    BankingAPIClient.request in *.
  destruct (_make_request "POST" "/transfer" _ None 0 st) as [res st1].
  cbn [fst snd] in *. rewrite Hfst, Hd.
  unfold Transfer.parse, with_clock.
  destruct (TransferResponse.from_dict d (clock (world st1))) as [res' c'].
  cbn [fst snd client world sent]. split; [reflexivity|].
  split; [exact Hc|]. eexists. split; [exact Hsent|].
  cbn. repeat split.
Qed.

(** X21: the transfer of the service handles no error.  What the request
    raises it raises; an answer that is no object raises
    [AttributeError], and an object whose amount is [null] raises
    [InvalidOperation]: in these two cases the request has been sent and
    answered with success. *)
Theorem transfer_raises_after_the_request request st st' :
  (forall e,
      BankingAPIClient.transfer (Transfer.to_dict float_repr request) st
      = (Raise e, st') ->
      Transfer.transfer float_repr request st = (Raise e, st'))
  /\ (forall response,
        BankingAPIClient.transfer (Transfer.to_dict float_repr request) st
        = (Ok response, st') ->
        (forall d, response <> VDict d) ->
        Transfer.transfer float_repr request st = (Raise AttributeError, st'))
  /\ (forall d,
        BankingAPIClient.transfer (Transfer.to_dict float_repr request) st
        = (Ok (VDict d), st') ->
        lookup "amount" d = Some VNone ->
        fst (Transfer.transfer float_repr request st)
        = Raise InvalidOperation).
Proof.
  unfold Transfer.transfer, bind. repeat split.
  - intros e H. now rewrite H.
  - intros response H Hd. rewrite H.
    destruct response; try reflexivity. now destruct (Hd d).
  - intros d H Ha. rewrite H. unfold Transfer.parse, with_clock.
    unfold TransferResponse.from_dict, get_default.
    destruct (TransferResponse.timestamp_of d (clock (world st')))
      as [ts c']. rewrite Ha. reflexivity.
Qed.

End Transfers.

Definition transfer_done : Http.Response :=
  json_response 200 "{}" (VDict sample_response).

(** A float for the amounts of the examples: the digits as they stand. *)
Definition plain_float (d : DecimalValue) : string :=
  match d with
  | Finite x =>
      str_int (coef x / 10 ^ (- exp x)) ++ "."
      ++ str_int (coef x mod 10 ^ (- exp x))
  | Infinity negative => if negative then "-inf" else "inf"
  | NaN => "nan"
  end.

Lemma transfer_posts_and_parses_witness :
  let request :=
    TransferRequest.mk "ACC1000" "ACC1001" (Finite (mkDecimal 1005 (-1))) in
  let out := Transfer.transfer plain_float request
               (fresh Config.default (always transfer_done)) in
  (exists r, fst out = Ok r /\ TransferResponse.status r = VStr "SUCCESS")
  /\ exists req,
       sent (world (snd out)) = [req]
       /\ Http.json req
          = Some (VDict [("fromAccount", VStr "ACC1000");
                         ("toAccount", VStr "ACC1001");
                         ("amount", VFloat "100.5")]).
Proof.
  intros request out.
  destruct (transfer_posts_and_parses plain_float request
              (fresh Config.default (always transfer_done))
              (Http.mkSession false) transfer_done sample_response
              eq_refl eq_refl (fun _ => eq_refl) eq_refl)
    as (H1 & _ & req & H2 & _ & _ & _ & H3).
  split.
  - eexists. split; [exact H1 | reflexivity].
  - exists req. split; [exact H2 | exact H3].
Defined.

(** ** config.py: loading a configuration *)

(** [r] then [k], for code that only returns or raises. *)
Definition rbind {A B} (r : result A) (k : A -> result B) : result B :=
  match r with
  | Ok a => k a
  | Raise e => Raise e
  end.

Module ConfigLoad.
Import Py PyLib.

(** A [Config] as Python holds it: the dataclass checks no types, so a
    field holds what the file gave for it. *)
Record t : Type := mk {
  base_url : value;
  timeout : value;
  max_retries : value;
  log_level : value
}.

(** [Config()] *)
Definition default : t :=
  mk (VStr "http://localhost:8123") (VInt 30) (VInt 3) (VStr "INFO").

(** The [Config] of the client, with its fields as values. *)
Definition of_config (c : Config.t) : t :=
  mk (VStr (Config.base_url c)) (VInt (Config.timeout c))
     (VInt (Config.max_retries c)) (VStr (Config.log_level c)).

(** What [load] finds outside the program: the environment variables,
    whether a path exists, what [open] and [json.load] give for a path
    ([None] when either raises), and the directory of the module. *)
Record Os : Type := mkOs {
  getenv : string -> option string;
  path_exists : string -> bool;
  read_json : string -> option value;
  module_dir : string
}.

(** [Config._load_from_file(file_path)]: every exception gives [{}]. *)
Definition _load_from_file (os : Os) (file_path : string) : value :=
  match read_json os file_path with
  | Some data => data
  | None => VDict []
  end.

(** [d[k] = v] for a [dict]. *)
Fixpoint setitem (d : dict) (k : string) (v : value) : dict :=
  match d with
  | [] => [(k, v)]
  | (k', v') :: d' =>
      if String.eqb k' k then (k, v) :: d' else (k', v') :: setitem d' k v
  end.

(** [config_data[k] = v]: only a [dict] takes a string key. *)
Definition store (config_data : value) (k : string) (v : value)
  : result value :=
  match config_data with
  | VDict d => Ok (VDict (setitem d k v))
  | _ => Raise TypeError
  end.

(** [os.getenv(name)] when it is a true value. *)
Definition env_true (os : Os) (name : string) : option string :=
  match getenv os name with
  | Some s => if str_falsy s then None else Some s
  | None => None
  end.

Definition field_names : list string :=
  ["base_url"; "timeout"; "max_retries"; "log_level"].

Definition is_field (k : string) : bool :=
  existsb (String.eqb k) field_names.

(** The call of [cls] with the data as keyword arguments: a mapping
    whose keys are fields. *)
Definition Config_kwargs (config_data : value) : result t :=
  match config_data with
  | VDict d =>
      if forallb (fun kv => is_field (fst kv)) d
      then Ok (mk (get_default d "base_url" (base_url default))
                  (get_default d "timeout" (timeout default))
                  (get_default d "max_retries" (max_retries default))
                  (get_default d "log_level" (log_level default)))
      else Raise TypeError
  | _ => Raise TypeError
  end.

(** [Config.to_dict()] *)
Definition to_dict (self : t) : value :=
  VDict [("base_url", base_url self); ("timeout", timeout self);
         ("max_retries", max_retries self); ("log_level", log_level self)].

Section Interpreter.

(** [int(s)] for a string is the interpreter's: [None] stands for its
    [ValueError]. *)
Variable py_int : string -> option Z.

Definition override_str (os : Os) (name key : string) (config_data : value)
  : result value :=
  match env_true os name with
  | Some s => store config_data key (VStr s)
  | None => Ok config_data
  end.

(** The [int] is taken before the store: its [ValueError] is caught, the
    [TypeError] of the store is not. *)
Definition override_int (os : Os) (name key : string) (config_data : value)
  : result value :=
  match env_true os name with
  | Some s =>
      match py_int s with
      | Some n => store config_data key (VInt n)
      | None => Ok config_data
      end
  | None => Ok config_data
  end.

Definition default_path (os : Os) : string :=
  module_dir os ++ "/config/settings.json".

(** The first part of [load]: the data of the file. *)
Definition file_data (os : Os) (config_path : option string) : value :=
  match config_path with
  | Some (String c p) => _load_from_file os (String c p)
  | _ =>
      if path_exists os (default_path os)
      then _load_from_file os (default_path os)
      else VDict []
  end.

(** [Config.load(config_path)] *)
Definition load (os : Os) (config_path : option string) : result t :=
  rbind (override_str os "BANKING_API_URL" "base_url"
           (file_data os config_path)) (fun d1 =>
  rbind (override_int os "BANKING_API_TIMEOUT" "timeout" d1) (fun d2 =>
  rbind (override_int os "BANKING_API_MAX_RETRIES" "max_retries" d2)
        (fun d3 =>
  rbind (override_str os "LOG_LEVEL" "log_level" d3) (fun d4 =>
  Config_kwargs d4)))).

End Interpreter.
End ConfigLoad.

Section Loading.
Import Py PyLib ConfigLoad.

Variable py_int : string -> option Z.

(** The environment with one variable set or unset. *)
Definition setenv (os : Os) (name : string) (v : option string) : Os :=
  mkOs (fun n => if String.eqb n name then v else getenv os n)
       (path_exists os) (read_json os) (module_dir os).

(** What the four overrides make of a [dict]. *)
Definition put_str (os : Os) (name key : string) (d : dict) : dict :=
  match env_true os name with
  | Some s => setitem d key (VStr s)
  | None => d
  end.

Definition put_int (os : Os) (name key : string) (d : dict) : dict :=
  match env_true os name with
  | Some s => match py_int s with
              | Some n => setitem d key (VInt n)
              | None => d
              end
  | None => d
  end.

Definition overridden (os : Os) (d : dict) : dict :=
  put_str os "LOG_LEVEL" "log_level"
    (put_int os "BANKING_API_MAX_RETRIES" "max_retries"
       (put_int os "BANKING_API_TIMEOUT" "timeout"
          (put_str os "BANKING_API_URL" "base_url" d))).

Lemma load_dict os config_path d :
  file_data os config_path = VDict d ->
  load py_int os config_path = Config_kwargs (VDict (overridden os d)).
Proof.
  intro H. unfold load, overridden, override_str, override_int, put_str,
    put_int. rewrite H.
  destruct (env_true os "BANKING_API_URL"); cbn [store rbind];
    (destruct (env_true os "BANKING_API_TIMEOUT") as [s1|];
     [destruct (py_int s1)|]; cbn [store rbind];
     (destruct (env_true os "BANKING_API_MAX_RETRIES") as [s2|];
      [destruct (py_int s2)|]; cbn [store rbind];
      (destruct (env_true os "LOG_LEVEL"); reflexivity))).
Qed.

Lemma load_no_dict os config_path :
  (forall d, file_data os config_path <> VDict d) ->
  load py_int os config_path = Raise TypeError.
Proof.
  intro H. unfold load, override_str, override_int.
  destruct (file_data os config_path) eqn:E;
    try (now destruct (H d));
    (destruct (env_true os "BANKING_API_URL"); cbn [store rbind];
     [reflexivity|];
     (destruct (env_true os "BANKING_API_TIMEOUT") as [s1|];
      [destruct (py_int s1)|]; cbn [store rbind]; try reflexivity);
     (destruct (env_true os "BANKING_API_MAX_RETRIES") as [s2|];
      [destruct (py_int s2)|]; cbn [store rbind]; try reflexivity);
     (destruct (env_true os "LOG_LEVEL"); reflexivity)).
Qed.

Lemma lookup_setitem_same d k v : lookup k (setitem d k v) = Some v.
Proof.
  induction d as [|[k' v'] d IH]; cbn.
  - now rewrite String.eqb_refl.
  - destruct (String.eqb k' k) eqn:E; cbn.
    + now rewrite String.eqb_refl.
    + rewrite String.eqb_sym, E. exact IH.
Qed.

Lemma lookup_setitem_other d k k' v :
  k' <> k -> lookup k' (setitem d k v) = lookup k' d.
Proof.
  intro Hne. induction d as [|[k0 v0] d IH]; cbn.
  - destruct (String.eqb_spec k' k); [contradiction | reflexivity].
  - destruct (String.eqb_spec k0 k) as [->|Hk]; cbn.
    + destruct (String.eqb_spec k' k); [contradiction|].
      destruct (String.eqb_spec k' k); [contradiction | reflexivity].
    + destruct (String.eqb k' k0); [reflexivity | exact IH].
Qed.

Lemma forallb_setitem d k v :
  is_field k = true ->
  forallb (fun kv => is_field (fst kv)) (setitem d k v)
  = forallb (fun kv => is_field (fst kv)) d.
Proof.
  intro Hk. induction d as [|[k0 v0] d IH]; cbn [setitem forallb fst].
  - now rewrite Hk.
  - destruct (String.eqb_spec k0 k) as [->|Hne]; cbn [forallb fst].
    + reflexivity.
    + now rewrite IH.
Qed.

Lemma forallb_overridden os d :
  forallb (fun kv => is_field (fst kv)) (overridden os d)
  = forallb (fun kv => is_field (fst kv)) d.
Proof.
  unfold overridden, put_str, put_int.
  destruct (env_true os "LOG_LEVEL");
    destruct (env_true os "BANKING_API_MAX_RETRIES") as [s2|];
    try destruct (py_int s2);
    destruct (env_true os "BANKING_API_TIMEOUT") as [s1|];
    try destruct (py_int s1);
    destruct (env_true os "BANKING_API_URL");
    rewrite ?forallb_setitem by reflexivity; reflexivity.
Qed.

Ltac other_key := rewrite lookup_setitem_other by discriminate.

(** X22: a variable of the environment that is set and not empty wins
    over the file: in the configuration [load] returns, the URL and the
    log level are the texts of [BANKING_API_URL] and [LOG_LEVEL], and the
    timeout and the retries the integers of [BANKING_API_TIMEOUT] and
    [BANKING_API_MAX_RETRIES] when [int] reads them. *)
Theorem environment_wins os config_path cfg :
  load py_int os config_path = Ok cfg ->
  (forall s, env_true os "BANKING_API_URL" = Some s -> base_url cfg = VStr s)
  /\ (forall s, env_true os "LOG_LEVEL" = Some s -> log_level cfg = VStr s)
  /\ (forall s n, env_true os "BANKING_API_TIMEOUT" = Some s ->
                  py_int s = Some n -> timeout cfg = VInt n)
  /\ (forall s n, env_true os "BANKING_API_MAX_RETRIES" = Some s ->
                  py_int s = Some n -> max_retries cfg = VInt n).
Proof.
  intro Hload.
  destruct (file_data os config_path) as [| | | | | |d] eqn:Hd;
    try (rewrite load_no_dict in Hload by (intros d' E; congruence);
         discriminate).
  rewrite (load_dict os config_path d Hd) in Hload.
  unfold Config_kwargs in Hload.
  destruct (forallb _ (overridden os d)); [|discriminate].
  injection Hload as <-. cbn [base_url timeout max_retries log_level].
  unfold overridden, put_str, put_int, get_default.
  repeat split.
  - intros s Hs. rewrite Hs.
    destruct (env_true os "LOG_LEVEL"); [other_key|];
      (destruct (env_true os "BANKING_API_MAX_RETRIES") as [s2|];
       [destruct (py_int s2); [other_key|]|]);
      (destruct (env_true os "BANKING_API_TIMEOUT") as [s1|];
       [destruct (py_int s1); [other_key|]|]);
      now rewrite lookup_setitem_same.
  - intros s Hs. rewrite Hs. now rewrite lookup_setitem_same.
  - intros s n Hs Hn. rewrite Hs, Hn.
    destruct (env_true os "LOG_LEVEL"); [other_key|];
      (destruct (env_true os "BANKING_API_MAX_RETRIES") as [s2|];
       [destruct (py_int s2); [other_key|]|]);
      now rewrite lookup_setitem_same.
  - intros s n Hs Hn. rewrite Hs, Hn.
    destruct (env_true os "LOG_LEVEL"); [other_key|];
      now rewrite lookup_setitem_same.
Qed.

(** [load] as a function of what the environment gives for the four
    names. *)
Definition load_with (u t r l : option string) (data : value)
  : result ConfigLoad.t :=
  rbind (match u with
         | Some s => store data "base_url" (VStr s)
         | None => Ok data
         end) (fun d1 =>
  rbind (match t with
         | Some s => match py_int s with
                     | Some n => store d1 "timeout" (VInt n)
                     | None => Ok d1
                     end
         | None => Ok d1
         end) (fun d2 =>
  rbind (match r with
         | Some s => match py_int s with
                     | Some n => store d2 "max_retries" (VInt n)
                     | None => Ok d2
                     end
         | None => Ok d2
         end) (fun d3 =>
  rbind (match l with
         | Some s => store d3 "log_level" (VStr s)
         | None => Ok d3
         end) (fun d4 =>
  Config_kwargs d4)))).

Lemma load_eq os config_path :
  load py_int os config_path
  = load_with (env_true os "BANKING_API_URL")
              (env_true os "BANKING_API_TIMEOUT")
              (env_true os "BANKING_API_MAX_RETRIES")
              (env_true os "LOG_LEVEL")
              (file_data os config_path).
Proof. reflexivity. Qed.

Lemma env_true_setenv os name name' :
  env_true (setenv os name None) name'
  = if String.eqb name' name then None else env_true os name'.
Proof.
  unfold env_true, setenv. cbn [getenv].
  now destruct (String.eqb name' name).
Qed.

(** X23: a [BANKING_API_TIMEOUT] or [BANKING_API_MAX_RETRIES] that [int]
    refuses counts as not set: [load] returns what it returns without the
    variable, so the value of the file stands where there is one, and the
    default only where there is none. *)
Theorem unreadable_number_is_skipped os config_path name s :
  name = "BANKING_API_TIMEOUT" \/ name = "BANKING_API_MAX_RETRIES" ->
  getenv os name = Some s ->
  py_int s = None ->
  load py_int os config_path = load py_int (setenv os name None) config_path.
Proof.
  intros Hname Hs Hint.
  assert (Hfile : file_data (setenv os name None) config_path
                  = file_data os config_path) by reflexivity.
  assert (Henv : env_true os name = None \/ env_true os name = Some s).
  { unfold env_true. rewrite Hs. destruct (str_falsy s); auto. }
  rewrite !load_eq, Hfile, !env_true_setenv.
  destruct Hname as [-> | ->]; cbn [String.eqb Ascii.eqb Bool.eqb];
    (destruct Henv as [-> | ->]; [reflexivity|]);
    unfold load_with; rewrite Hint; reflexivity.
Qed.

(** No variable of the four is set to a true value. *)
Definition bare (os : Os) : Prop :=
  env_true os "BANKING_API_URL" = None
  /\ env_true os "BANKING_API_TIMEOUT" = None
  /\ env_true os "BANKING_API_MAX_RETRIES" = None
  /\ env_true os "LOG_LEVEL" = None.

Lemma overridden_bare os d : bare os -> overridden os d = d.
Proof.
  intros (H1 & H2 & H3 & H4). unfold overridden, put_str, put_int.
  now rewrite H1, H2, H3, H4.
Qed.

(** X24: a file given by path that cannot be opened or holds no JSON is
    passed over in silence: with a bare environment [load] returns the
    defaults, and the file at the default place is not looked at. *)
Theorem unreadable_file_gives_defaults os c p :
  read_json os (String c p) = None ->
  bare os ->
  load py_int os (Some (String c p)) = Ok ConfigLoad.default.
Proof.
  intros Hr Hb.
  rewrite (load_dict os (Some (String c p)) []).
  - rewrite (overridden_bare os [] Hb). reflexivity.
  - unfold file_data, _load_from_file. now rewrite Hr.
Qed.

Lemma forallb_false_overridden os d k :
  In k (map fst d) -> is_field k = false ->
  forallb (fun kv => is_field (fst kv)) (overridden os d) = false.
Proof.
  intros Hin Hk. rewrite forallb_overridden.
  induction d as [|[k0 v0] d IH]; [destruct Hin|].
  cbn [forallb fst map] in *. destruct Hin as [->|Hin].
  - now rewrite Hk.
  - rewrite (IH Hin). apply andb_false_r.
Qed.

(** X25: a file that holds something else than an object, or an object
    with a key that is no field of [Config], makes [load] raise
    [TypeError], whatever the environment holds. *)
Theorem foreign_file_raises os config_path :
  ((forall d, file_data os config_path <> VDict d) ->
   load py_int os config_path = Raise TypeError)
  /\ (forall d k,
        file_data os config_path = VDict d ->
        In k (map fst d) -> is_field k = false ->
        load py_int os config_path = Raise TypeError).
Proof.
  split; [apply load_no_dict|].
  intros d k Hd Hin Hk. rewrite (load_dict os config_path d Hd).
  unfold Config_kwargs. now rewrite (forallb_false_overridden os d k Hin Hk).
Qed.

(** X26: a configuration written out by [to_dict] loads back as it was:
    when the file at the given path holds [to_dict] of a configuration and
    the environment is bare, [load] returns that configuration. *)
Theorem load_restores_to_dict os c p cfg :
  read_json os (String c p) = Some (to_dict cfg) ->
  bare os ->
  load py_int os (Some (String c p)) = Ok cfg.
Proof.
  intros Hr Hb.
  rewrite (load_dict os (Some (String c p))
             [("base_url", base_url cfg); ("timeout", timeout cfg);
              ("max_retries", max_retries cfg);
              ("log_level", log_level cfg)]).
  - rewrite (overridden_bare os _ Hb). now destruct cfg.
  - unfold file_data, _load_from_file. now rewrite Hr.
Qed.

End Loading.

(** A reader of plain digits for the examples. *)
Definition digits_int (s : string) : option Z :=
  let '(n, cnt, rest) := take_digits 0 0 s in
  if (cnt =? 0) || negb (str_falsy rest) then None else Some n.

Definition settings : value :=
  VDict [("base_url", VStr "http://bank:9000"); ("timeout", VInt 5)].

(** A machine with one settings file and the given environment. *)
Definition machine (env : list (string * string)) : ConfigLoad.Os :=
  ConfigLoad.mkOs
    (fun n => match find (fun kv => String.eqb (fst kv) n) env with
              | Some kv => Some (snd kv)
              | None => None
              end)
    (fun _ => false)
    (fun p => if String.eqb p "settings.json" then Some settings else None)
    "/app".

Lemma environment_wins_witness :
  exists cfg,
    ConfigLoad.load digits_int
      (machine [("BANKING_API_URL", "http://env:1");
                ("BANKING_API_TIMEOUT", "7")])
      (Some "settings.json") = Ok cfg
    /\ ConfigLoad.base_url cfg = VStr "http://env:1"
    /\ ConfigLoad.timeout cfg = VInt 7.
Proof.
  eexists. split; [reflexivity|].
  destruct (environment_wins digits_int
              (machine [("BANKING_API_URL", "http://env:1");
                        ("BANKING_API_TIMEOUT", "7")])
              (Some "settings.json") _ eq_refl) as (H1 & _ & H3 & _).
  split; [exact (H1 _ eq_refl) | exact (H3 _ _ eq_refl eq_refl)].
Defined.

Lemma unreadable_number_is_skipped_witness :
  ConfigLoad.load digits_int (machine [("BANKING_API_TIMEOUT", "soon")])
    (Some "settings.json")
  = Ok (ConfigLoad.mk (VStr "http://bank:9000") (VInt 5) (VInt 3)
          (VStr "INFO")).
Proof.
  rewrite (unreadable_number_is_skipped digits_int
             (machine [("BANKING_API_TIMEOUT", "soon")])
             (Some "settings.json") "BANKING_API_TIMEOUT" "soon"
             (or_introl eq_refl) eq_refl eq_refl).
  reflexivity.
Defined.

Lemma unreadable_file_gives_defaults_witness :
  ConfigLoad.load digits_int (machine []) (Some "missing.json")
  = Ok ConfigLoad.default.
Proof.
  apply (unreadable_file_gives_defaults digits_int (machine [])
           "m" "issing.json" eq_refl).
  repeat split.
Defined.

Definition saved : ConfigLoad.t :=
  ConfigLoad.of_config (Config.mk "http://bank:9000" 5 1 "DEBUG").

(** A machine whose files all hold the saved configuration. *)
Definition archive : ConfigLoad.Os :=
  ConfigLoad.mkOs (fun _ => None) (fun _ => false)
    (fun _ => Some (ConfigLoad.to_dict saved)) "/app".

Lemma load_restores_to_dict_witness :
  ConfigLoad.load digits_int archive (Some "saved.json") = Ok saved.
Proof.
  apply (load_restores_to_dict digits_int archive "s" "aved.json" saved
           eq_refl).
  repeat split.
Defined.
